(** * The gateway request interceptor (src/request-interceptor.ts)

    A shallow embedding of [propagateHeaders], [filterAndPrefixHeaders] and
    [handleInterceptorRequest] over an explicit object store, followed by the
    properties of the header propagation, header filtering, body reshaping and
    handler orchestration.  [createTransformedGatewayResponse] and the
    dispatcher that routes an event to the handler are embedded as well, and
    their properties close the file.

    JavaScript objects have identity: the handler receives a reference to the
    input envelope, reads it, and returns a reference to an object it built.
    The store makes that visible, so that sharing between input and output and
    the absence of writes to the input can be stated. *)

From Stdlib Require Import ZArith Ascii.
From stdpp Require Import strings pretty.
From stdpp Require Import list gmap fin_maps.

Open Scope string_scope.
Open Scope list_scope.
Open Scope nat_scope.

(** * The model *)

(** ** Values and the object store *)

Abbreviation loc := nat (only parsing).

(** The values an [unknown] field can hold at run time: the values of JSON,
    [undefined], and references to objects, which may be shared or cyclic.
    Numbers are only ever tested for truthiness by this program (zero is
    falsy) and carry no own properties, so an integer stands for a number.
    A string is a sequence of 8-bit characters; the program compares ASCII
    characters only. *)
Inductive val :=
  | VUndefined
  | VNull
  | VBool (b : bool)
  | VNum (n : Z)
  | VStr (s : string)
  | VRef (l : loc).

Global Instance val_eq_dec : EqDecision val.
Proof. solve_decision. Defined.

Inductive okind := Plain | Array.

Global Instance okind_eq_dec : EqDecision okind.
Proof. solve_decision. Defined.

(** An object is its own enumerable properties; an array is an object whose
    property names are its indices. *)
Record obj := Obj { kind : okind; props : gmap string val }.

(** The store: a reference is an index, allocation appends. *)
Abbreviation heap := (list obj) (only parsing).

Inductive error :=
  | TypeError (msg : string)
  | DanglingRef.

Inductive result (A : Type) :=
  | Ok (a : A) (h : heap)
  | Throw (e : error).

Arguments Ok {A} a h.

Arguments Throw {A} e.

Definition M (A : Type) := heap → result A.

Definition ret {A} (a : A) : M A := λ h, Ok a h.

Definition bind {A B} (c : M A) (k : A → M B) : M B := λ h,
  match c h with
  | Ok a h' => k a h'
  | Throw e => Throw e
  end.

Notation "'let!' x ':=' c 'in' k" := (bind c (λ x, k))
  (at level 10, x pattern, c at level 100, k at level 200).

Notation "c ';;' k" := (bind c (λ _, k))
  (at level 100, k at level 200, right associativity).

(** ** Primitive operations of the language *)

(** ToBoolean. *)
Definition truthy (v : val) : bool :=
  match v with
  | VUndefined | VNull => false
  | VBool b => b
  | VNum n => negb (n =? 0)%Z
  | VStr s => negb (bool_decide (s = ""))
  | VRef _ => true
  end.

(** The own enumerable properties of a string: one per character, named by
    its index. *)
Definition char_entries (s : string) : list (string * val) :=
  imap (λ i c, (pretty i, VStr (String c ""))) (String.list_ascii_of_string s).

(** The own enumerable properties of a value, as seen by [Object.entries] and
    by object spread: those of the object behind a reference, the indexed
    characters of a string, nothing for the other primitives. *)
Definition own_props (h : heap) (v : val) : gmap string val :=
  match v with
  | VRef l => from_option props ∅ (h !! l)
  | VStr s => list_to_map (char_entries s)
  | _ => ∅
  end.

(** Property read [v.k].  Reading from [undefined] or [null] throws.  The
    program reads the fixed names mcp, rawGatewayRequest, gatewayRequest,
    body, path, httpMethod, headers, params and arguments only; none of them
    is inherited from a built-in prototype, so a read is a lookup among the
    own properties. *)
Definition get_prop (v : val) (k : string) : M val := λ h,
  match v with
  | VUndefined | VNull =>
      Throw (TypeError ("Cannot read properties of undefined or null: " +:+ k))
  | _ => Ok (default VUndefined (own_props h v !! k)) h
  end.

(** Object literal: a new object. *)
Definition alloc (o : obj) : M val := λ h, Ok (VRef (length h)) (h ++ [o]).

(** What the assignment [o[k] = v] does to the own properties of an ordinary
    object whose prototype is [Object.prototype].  A name the object has, or
    any name but [__proto__], is overwritten or created.  The name
    [__proto__], when the object has no own property of that name, reaches
    the accessor inherited from [Object.prototype], which creates no own
    property (and ignores a value that is neither an object nor [null]). *)
Definition set_prop (k : string) (v : val) (p : gmap string val) : gmap string val :=
  if bool_decide (k = "__proto__") && bool_decide (p !! k = None) then p
  else <[k := v]> p.

(** The assignment [target[k] = v] on the store.  The store records the own
    properties of an object, not its prototype.  The objects the program
    assigns to are the new objects of lines 82 and 111, whose prototype is
    [Object.prototype] until an assignment of [null] or of an object to the
    name [__proto__] replaces it.  The replacement changes no own property;
    what it changes is the effect of a later assignment to [__proto__] on
    the same object, which the program can only make in [propagateHeaders]
    called with two arguments that both have an own [__proto__].  Up to
    there the own properties given here are those of the program. *)
Definition assign (target : val) (k : string) (v : val) : M unit := λ h,
  match target with
  | VRef l =>
      match h !! l with
      | Some o => Ok tt (<[l := Obj (kind o) (set_prop k v (props o))]> h)
      | None => Throw DanglingRef
      end
  | VUndefined | VNull =>
      Throw (TypeError ("Cannot set properties of undefined or null: " +:+ k))
  | _ => Throw (TypeError ("Cannot create property on a primitive: " +:+ k))
  end.

(** [Object.entries(v)]. *)
Definition Object_entries (v : val) : M (list (string * val)) := λ h,
  Ok (map_to_list (own_props h v)) h.

(** [for (const [key, value] of entries) body]. *)
Fixpoint for_each (entries : list (string * val))
    (body : string → val → M unit) : M unit :=
  match entries with
  | [] => ret tt
  | (key, value) :: rest => body key value ;; for_each rest body
  end.

(** ** JSON.stringify, as far as it can fail

    The rendered text is only handed to the console; what the caller of the
    handler can observe is whether serialization throws.  [JSON.stringify]
    keeps the stack of the objects it is inside of and throws a [TypeError]
    on meeting one of them again. *)
Inductive outcome := Done | Circular | Dangling | OutOfFuel.

Fixpoint stringify_walk (fuel : nat) (h : heap) (stack : list loc) (v : val)
    : outcome :=
  match v with
  | VRef l =>
      if bool_decide (l ∈ stack) then Circular else
      match h !! l with
      | None => Dangling
      | Some o =>
          match fuel with
          | 0 => OutOfFuel
          | S fuel' =>
              foldr (λ kv rest,
                       match stringify_walk fuel' h (l :: stack) kv.2 with
                       | Done => rest
                       | bad => bad
                       end)
                    Done (map_to_list (props o))
          end
      end
  | _ => Done
  end.

(** The stack holds distinct objects of the store, so one more unit of fuel
    than there are objects is never used up (lemma [stringify_walk_enough])
    and the walk is the one of [JSON.stringify]. *)
Definition JSON_stringify (v : val) : M unit := λ h,
  match stringify_walk (S (length h)) h [] v with
  | Done => Ok tt h
  | Circular => Throw (TypeError "Converting circular structure to JSON")
  | Dangling | OutOfFuel => Throw DanglingRef
  end.

(** [console.log(label, JSON.stringify(v, null, 2))]: the console output is
    not part of the store. *)
Definition console_log_json (label : string) (v : val) : M unit :=
  JSON_stringify v.

(** ** Strings *)

Definition lower_ascii (c : ascii) : ascii :=
  let n := nat_of_ascii c in
  if (65 <=? n)%nat && (n <=? 90)%nat then ascii_of_nat (n + 32) else c.

Fixpoint toLowerCase (s : string) : string :=
  match s with
  | EmptyString => EmptyString
  | String c r => String (lower_ascii c) (toLowerCase r)
  end.

Definition startsWith (s p : string) : bool := String.prefix p s.

(** The test of line 119. *)
Definition is_amzn (key : string) : bool := startsWith (toLowerCase key) "x-amzn".

(** The template literal of line 123. *)
Definition mcp_header (key : string) : string := "mcp_header_" +:+ key.

(** ** The program *)

Definition empty_object : obj := Obj Plain ∅.

(** Lines 78-101. *)
Definition propagateHeaders (incomingHeaders additionalHeaders : val) : M val :=
  let! propagatedHeaders := alloc empty_object in
  (if truthy incomingHeaders then
     let! entries := Object_entries incomingHeaders in
     for_each entries (λ key value, assign propagatedHeaders key value)
   else ret tt) ;;
  (if truthy additionalHeaders then
     let! entries := Object_entries additionalHeaders in
     for_each entries (λ key value, assign propagatedHeaders key value)
   else ret tt) ;;
  console_log_json "Propagated Headers:" propagatedHeaders ;;
  ret propagatedHeaders.

(** Lines 108-129. *)
Definition filterAndPrefixHeaders (headers : val) : M val :=
  let! result := alloc empty_object in
  if negb (truthy headers) then ret result else
  let! entries := Object_entries headers in
  for_each entries (λ key value,
    if is_amzn key then ret tt
    else assign result (mcp_header key) value) ;;
  console_log_json "Filtered and Prefixed Headers:" result ;;
  ret result.

(** [v || {}]. *)
Definition or_empty (v : val) : M val :=
  if truthy v then ret v else alloc empty_object.

(** Lines 150-164: the body-reshaping step.  Each object literal is a new
    object holding the spread properties and then the named one; in
    [{...a, ...b}] the entries of [b] win.  The literals are nested: the
    innermost is allocated first here, the order of allocation being
    unobservable. *)
Definition mergeBody (originalBody prefixedHeaders : val) : M val :=
  let! params_field := get_prop originalBody "params" in
  let! params := or_empty params_field in
  let! arguments_field := get_prop params "arguments" in
  let! existingArguments := or_empty arguments_field in
  let! merged_arguments := (λ h,
    alloc (Obj Plain (own_props h prefixedHeaders ∪ own_props h existingArguments)) h) in
  let! merged_params := (λ h,
    alloc (Obj Plain (<["arguments" := merged_arguments]> (own_props h params))) h) in
  (λ h, alloc (Obj Plain (<["params" := merged_params]> (own_props h originalBody))) h).

(** Lines 136-179.  Lines 138-142 each read their path from [input] again;
    nothing is written in between, so each prefix is read once here. *)
Definition handleInterceptorRequest (input : val) : M val :=
  console_log_json "Interceptor Input:" input ;;
  let! mcp := get_prop input "mcp" in
  let! rawGatewayRequest := get_prop mcp "rawGatewayRequest" in
  get_prop rawGatewayRequest "body" ;;
  let! gatewayRequest := get_prop mcp "gatewayRequest" in
  get_prop gatewayRequest "path" ;;
  get_prop gatewayRequest "httpMethod" ;;
  let! request_headers := get_prop gatewayRequest "headers" in
  console_log_json "Gateway Request Headers:" request_headers ;;
  let! request_body := get_prop gatewayRequest "body" in
  console_log_json "Gateway Request Body:" request_body ;;
  let! headers := propagateHeaders request_headers VUndefined in
  let! prefixedHeaders := filterAndPrefixHeaders request_headers in
  let! mergedBody := mergeBody request_body prefixedHeaders in
  let! transformedGatewayRequest :=
    alloc (Obj Plain (<["headers" := headers]> (<["body" := mergedBody]> ∅))) in
  let! out_mcp :=
    alloc (Obj Plain (<["transformedGatewayRequest" := transformedGatewayRequest]> ∅)) in
  let! output :=
    alloc (Obj Plain (<["interceptorOutputVersion" := VStr "1.0"]>
                        (<["mcp" := out_mcp]> ∅))) in
  console_log_json "Interceptor Output:" output ;;
  ret output.

(** ** The rest of the program *)

(** Lines 47-70. *)
Definition createTransformedGatewayResponse (statusCode body : val) : M val :=
  alloc (Obj Plain (<["statusCode" := statusCode]> (<["body" := body]> ∅))).

(** *** The dispatcher (lines 181-248)

    The dispatcher is an [async] function: what it throws rejects the
    promise it returns.  [JSON.parse] can throw a [SyntaxError]. *)
Inductive reason :=
  | Thrown (e : error)
  | SyntaxError (msg : string).

Inductive promise (A : Type) :=
  | Fulfilled (a : A) (h : heap)
  | Rejected (r : reason).

Arguments Fulfilled {A} a h.

Arguments Rejected {A} r.

Definition P (A : Type) := heap → promise A.

Definition await {A} (c : M A) : P A := λ h,
  match c h with
  | Ok a h' => Fulfilled a h'
  | Throw e => Rejected (Thrown e)
  end.

Definition and_then {A B} (c : P A) (k : A → P B) : P B := λ h,
  match c h with
  | Fulfilled a h' => k a h'
  | Rejected r => Rejected r
  end.

Notation "'let?' x ':=' c 'in' k" := (and_then c (λ x, k))
  (at level 10, x pattern, c at level 100, k at level 200).

(** [JSON.stringify(v)] with its text.  The text is the one the built-in
    renders, taken as the parameter [render]; the stringification of
    [undefined] is [undefined]. *)
Definition JSON_stringify_text (render : heap → val → string) (v : val) : M val :=
  JSON_stringify v ;;
  (λ h, Ok (match v with
            | VUndefined => VUndefined
            | _ => VStr (render h v)
            end) h).

(** [k in v] for an object [v]: the names tested by the dispatcher are not
    inherited from a built-in prototype. *)
Definition has_property (h : heap) (v : val) (k : string) : bool :=
  bool_decide (is_Some (own_props h v !! k)).

(** Lines 187-194. *)
Definition isInterceptorInput (h : heap) (event : val) : bool :=
  match event with
  | VRef _ =>
      has_property h event "interceptorInputVersion"
      && has_property h event "mcp"
  | _ => false
  end.

(** The response literal of lines 218-224, 232-238 and 241-247, its text
    evaluated first (the order within the literal is unobservable). *)
Definition json_response (statusCode : Z) (text : val) : M val :=
  let! headers :=
    alloc (Obj Plain {["Content-Type" := VStr "application/json"]}) in
  alloc (Obj Plain (<["statusCode" := VNum statusCode]>
                      (<["headers" := headers]> (<["body" := text]> ∅)))).

(** [apiEvent.body ? JSON.parse(apiEvent.body) : {}] (lines 216 and 229). *)
Definition parse_body (JSON_parse : val → P val) (event : val) : P val :=
  let? body_field := await (get_prop event "body") in
  if truthy body_field then JSON_parse body_field
  else await (alloc empty_object).

(** Lines 196-248.  [JSON.parse] is the parameter [JSON_parse]. *)
Definition handler (JSON_parse : val → P val) (render : heap → val → string)
    (event context : val) : P val :=
  let? _ := await (console_log_json "Event:" event) in
  let? _ := await (console_log_json "Context:" context) in
  λ h,
    (if isInterceptorInput h event then
       await (handleInterceptorRequest event)
     else
       let? path := await (get_prop event "path") in
       let? method := await (get_prop event "httpMethod") in
       if bool_decide (path = VStr "/echo")
          && bool_decide (method = VStr "POST") then
         let? body := parse_body JSON_parse event in
         let? text := await (JSON_stringify_text render body) in
         await (json_response 200 text)
       else if bool_decide (path = VStr "/intercept")
               && bool_decide (method = VStr "POST") then
         let? input := parse_body JSON_parse event in
         let? output := await (handleInterceptorRequest input) in
         let? text := await (JSON_stringify_text render output) in
         await (json_response 200 text)
       else
         let? message :=
           await (alloc (Obj Plain {["message" := VStr "Not Found"]})) in
         let? text := await (JSON_stringify_text render message) in
         await (json_response 404 text)) h.

(** * Reading the store *)

(** ** What the loops compute

    Both loops walk the entries of a header object and assign into one
    object; [store_entries] is the effect of such a loop on the properties of
    that object. *)
Definition store_entries (skip : string → bool) (rename : string → string)
    (entries : list (string * val)) (p : gmap string val) : gmap string val :=
  foldl (λ acc kv,
           if skip kv.1 then acc else set_prop (rename kv.1) kv.2 acc)
        p entries.

Definition kept (skip : string → bool) (rename : string → string)
    (kv : string * val) : Prop :=
  skip kv.1 = false ∧ rename kv.1 ≠ "__proto__".

Global Instance kept_dec skip rename kv : Decision (kept skip rename kv).
Proof. unfold kept. apply _. Defined.

(** A guarded loop over the entries of [v], as in lines 85-89, 92-96 and
    113-124: a falsy [v] is not iterated. *)
Definition loop_over (skip : string → bool) (rename : string → string)
    (h : heap) (v : val) (p : gmap string val) : gmap string val :=
  if truthy v then store_entries skip rename (map_to_list (own_props h v)) p
  else p.

Definition no_skip (key : string) : bool := false.

(** The properties of the object [propagateHeaders] returns. *)
Definition propagated (h : heap) (incomingHeaders additionalHeaders : val)
    : gmap string val :=
  loop_over no_skip id h additionalHeaders
    (loop_over no_skip id h incomingHeaders ∅).

(** The properties of the object [filterAndPrefixHeaders] returns. *)
Definition prefixed (h : heap) (headers : val) : gmap string val :=
  loop_over is_amzn mcp_header h headers ∅.

(** The value read by [v.k] when [v] is neither [undefined] nor [null]. *)
Definition field (h : heap) (v : val) (k : string) : val :=
  default VUndefined (own_props h v !! k).

Definition nullish (v : val) : bool :=
  match v with
  | VUndefined | VNull => true
  | _ => false
  end.

(** The properties spread out of [v || {}]. *)
Definition spread_or_empty (h : heap) (v : val) : gmap string val :=
  if truthy v then own_props h v else ∅.

(** The objects [v || {}] creates. *)
Definition fresh_objects (v : val) : list obj :=
  if truthy v then [] else [empty_object].

(** Lines 152-153, read off the store. *)
Definition params_of (h : heap) (originalBody : val) : gmap string val :=
  spread_or_empty h (field h originalBody "params").

Definition arguments_field (h : heap) (originalBody : val) : val :=
  default VUndefined (params_of h originalBody !! "arguments").

Definition arguments_of (h : heap) (originalBody : val) : gmap string val :=
  spread_or_empty h (arguments_field h originalBody).

(** The objects the body-reshaping step appends to a store of [base]
    objects: the empty objects of the two defaults, then the merged
    arguments, the rebuilt params and the merged body. *)
Definition merged_objects (base : nat) (defaults : list obj)
    (prefixedHeaders existingArguments params originalBody : gmap string val)
    : list obj :=
  let la := base + length defaults in
  defaults ++
  [ Obj Plain (prefixedHeaders ∪ existingArguments);
    Obj Plain (<["arguments" := VRef la]> params);
    Obj Plain (<["params" := VRef (S la)]> originalBody) ].

Definition merge_defaults (h : heap) (originalBody : val) : list obj :=
  fresh_objects (field h originalBody "params")
  ++ fresh_objects (arguments_field h originalBody).

Definition merged (h : heap) (originalBody prefixedHeaders : val) : list obj :=
  merged_objects (length h) (merge_defaults h originalBody)
    (own_props h prefixedHeaders) (arguments_of h originalBody)
    (params_of h originalBody) (own_props h originalBody).

(** Where the merged body, its params and its arguments are allocated. *)
Definition merged_arguments_loc (h : heap) (originalBody : val) : loc :=
  length h + length (merge_defaults h originalBody).

Definition merged_params_loc (h : heap) (originalBody : val) : loc :=
  S (merged_arguments_loc h originalBody).

Definition merged_body_loc (h : heap) (originalBody : val) : loc :=
  S (merged_params_loc h originalBody).

(** The request object of an input envelope, when the nested fields that
    lines 138-142 dereference are there. *)
Definition gateway_request (h : heap) (input : val) : option val :=
  if nullish input then None else
  let mcp := field h input "mcp" in
  if nullish mcp then None else
  if nullish (field h mcp "rawGatewayRequest") then None else
  let gatewayRequest := field h mcp "gatewayRequest" in
  if nullish gatewayRequest then None else Some gatewayRequest.

(** The store after the two header functions have run. *)
Definition headers_done (h : heap) (request_headers : val) : list obj :=
  h ++ [ Obj Plain (propagated h request_headers VUndefined);
         Obj Plain (prefixed h request_headers) ].

Definition forwarded_loc (h : heap) : loc := length h.

Definition prefixed_loc (h : heap) : loc := S (length h).

(** The objects lines 166-174 create. *)
Definition envelope_objects (base : nat) (headers mergedBody : val) : list obj :=
  [ Obj Plain (<["headers" := headers]> (<["body" := mergedBody]> ∅));
    Obj Plain (<["transformedGatewayRequest" := VRef base]> ∅);
    Obj Plain (<["interceptorOutputVersion" := VStr "1.0"]>
                 (<["mcp" := VRef (S base)]> ∅)) ].

(** Everything the handler appends to the store, in allocation order. *)
Definition handler_objects (h : heap) (request_headers request_body : val)
    : list obj :=
  let h2 := headers_done h request_headers in
  let body_objects := merged h2 request_body (VRef (prefixed_loc h)) in
  [ Obj Plain (propagated h request_headers VUndefined);
    Obj Plain (prefixed h request_headers) ]
  ++ body_objects
  ++ envelope_objects (length h2 + length body_objects)
       (VRef (forwarded_loc h)) (VRef (merged_body_loc h2 request_body)).

Definition request_loc (h : heap) (request_headers request_body : val) : loc :=
  length (headers_done h request_headers)
  + length (merged (headers_done h request_headers) request_body
              (VRef (prefixed_loc h))).

Definition mcp_loc (h : heap) (request_headers request_body : val) : loc :=
  S (request_loc h request_headers request_body).

Definition output_loc (h : heap) (request_headers request_body : val) : loc :=
  S (mcp_loc h request_headers request_body).

(** A header mapping ([Record<string, string>]) as an object of the store. *)
Definition headers_obj (H : gmap string string) : obj := Obj Plain (VStr <$> H).

(** The tree a value of the store unfolds into, to [fuel] levels, with the
    fields of an object in the enumeration order of its finite map. *)
#[local] Unset Elimination Schemes.
Inductive json :=
  | JUndefined
  | JNull
  | JBool (b : bool)
  | JNum (n : Z)
  | JStr (s : string)
  | JObject (k : okind) (fields : list (string * json))
  | JCut.
#[local] Set Elimination Schemes.

Fixpoint reify (fuel : nat) (h : heap) (v : val) : json :=
  match v with
  | VUndefined => JUndefined
  | VNull => JNull
  | VBool b => JBool b
  | VNum n => JNum n
  | VStr s => JStr s
  | VRef l =>
      match fuel with
      | 0 => JCut
      | S fuel' =>
          match h !! l with
          | None => JCut
          | Some o =>
              JObject (kind o)
                (map (λ kv, (kv.1, reify fuel' h kv.2)) (map_to_list (props o)))
          end
      end
  end.

(** The body-reshaping step, run and read back as a tree. *)
Definition run_merge (h : heap) (originalBody prefixedHeaders : val)
    : option json :=
  match mergeBody originalBody prefixedHeaders h with
  | Ok v h' => Some (reify (length h') h' v)
  | Throw _ => None
  end.

(** Values without own enumerable properties: [undefined], [null], the
    booleans, the numbers and the empty string. *)
Definition scalar (v : val) : bool :=
  match v with
  | VUndefined | VNull | VBool _ | VNum _ => true
  | VStr s => bool_decide (s = "")
  | VRef _ => false
  end.

(** A value that is not an object: a primitive other than [undefined], or
    an array. *)
Definition non_object (h : heap) (v : val) : bool :=
  match v with
  | VUndefined => false
  | VRef l =>
      match h !! l with
      | Some o => bool_decide (kind o = Array)
      | None => false
      end
  | _ => true
  end.

(** The reading of the error-handling rule of the body-reshaping step: a
    non-object [params] gives the merged body that the same body without
    [params] gives. *)
Definition nonobject_params_as_absent : Prop :=
  ∀ (h : heap) (lb lp : loc) (o : obj) (v : val),
    h !! lb = Some o →
    props o !! "params" = Some v →
    non_object h v = true →
    run_merge h (VRef lb) (VRef lp)
    = run_merge (<[lb := Obj (kind o) (delete "params" (props o))]> h)
        (VRef lb) (VRef lp).

(** ** JSON values in the store

    [json_tree n h v]: in the store [h] the value [v] unfolds into a finite
    tree nested at most [n] objects deep, every reference in it being
    allocated.  This is what parsing a JSON text produces. *)
Fixpoint json_tree (n : nat) (h : heap) (v : val) : bool :=
  match v with
  | VRef l =>
      match n with
      | 0 => false
      | S n' =>
          match h !! l with
          | None => false
          | Some o => forallb (λ kv, json_tree n' h kv.2) (map_to_list (props o))
          end
      end
  | _ => true
  end.

(** Every reference stored in the store is allocated. *)
Definition closed_heap (h : heap) : bool :=
  forallb (λ o, forallb (λ kv, match kv.2 with
                               | VRef l => l <? length h
                               | _ => true
                               end) (map_to_list (props o))) h.

(** The references met when unfolding a value to [fuel] levels. *)
Fixpoint reachable_refs (fuel : nat) (h : heap) (v : val) : list loc :=
  match v with
  | VRef l =>
      l :: match fuel with
           | 0 => []
           | S fuel' =>
               match h !! l with
               | None => []
               | Some o =>
                   flat_map (λ kv, reachable_refs fuel' h kv.2)
                     (map_to_list (props o))
               end
           end
  | _ => []
  end.

(** The path [out.mcp.transformedGatewayRequest] of an output envelope. *)
Definition transformed_request (h : heap) (output : val) : val :=
  field h (field h output "mcp") "transformedGatewayRequest".

(** The reading of the error-handling rule for logging: whatever the
    envelope holds, the handler returns. *)
Definition logging_failure_swallowed : Prop :=
  ∀ (h : heap) (input gatewayRequest : val) (lb : loc),
    closed_heap h = true →
    gateway_request h input = Some gatewayRequest →
    field h gatewayRequest "body" = VRef lb →
    ∃ output h', handleInterceptorRequest input h = Ok output h'.

(** The reading of the frame rule: the input is unchanged and no object of
    the input can be reached from the output. *)
Definition output_built_from_new_objects : Prop :=
  ∀ n (h : heap) (input gatewayRequest : val) (lb : loc),
    json_tree n h input = true →
    gateway_request h input = Some gatewayRequest →
    field h gatewayRequest "body" = VRef lb →
    ∃ output h',
      handleInterceptorRequest input h = Ok output h'
      ∧ (∀ l o, h !! l = Some o → h' !! l = Some o)
      ∧ ∀ l, l ∈ reachable_refs (length h') h' output → length h ≤ l.

(** ** Header mappings and prototypes *)

(** The optional header mapping of a request ([headers?: Record<string,
    string>]): [v] is [undefined] and the mapping is empty, or [v] is an
    object of the store holding the string-valued mapping [H]. *)
Definition header_mapping (h : heap) (v : val) (H : gmap string string) : Prop :=
  match v with
  | VUndefined => H = ∅
  | VRef l => h !! l = Some (headers_obj H)
  | _ => False
  end.

(** Whether assigning the entries of [v] to a new object leaves the
    prototype of that object alone: [v] has no own property [__proto__]
    holding [null] or an object, the two kinds of value the inherited
    setter acts on. *)
Definition keeps_prototype (h : heap) (v : val) : bool :=
  match own_props h v !! "__proto__" with
  | Some VNull | Some (VRef _) => false
  | _ => true
  end.

(** ** Reading the dispatcher *)

(** The objects of a response literal of the dispatcher (lines 218-224,
    232-238 and 241-247) on a store of [base] objects. *)
Definition response_objects (base : nat) (statusCode : Z) (text : val)
    : list obj :=
  [ Obj Plain {["Content-Type" := VStr "application/json"]};
    Obj Plain (<["statusCode" := VNum statusCode]>
                 (<["headers" := VRef base]> (<["body" := text]> ∅))) ].

(** The routes of the dispatcher. *)
Definition routed (h : heap) (event : val) (path : string) : bool :=
  bool_decide (field h event "path" = VStr path)
  && bool_decide (field h event "httpMethod" = VStr "POST").

(** ** Sample data *)

Definition sample_headers : gmap string string :=
  <["Authorization" := "Bearer t"]> (<["x-amzn-trace" := "1"]> ∅).

Definition sample_prefixed : gmap string string := {["mcp_header_X" := "v"]}.

Definition sample_flat_body : list obj :=
  [ Obj Plain {["a" := VNum 1]}; headers_obj sample_prefixed ].

Definition sample_nested_body : list obj :=
  [ Obj Plain (<["a" := VNum 1]> {["params" := VRef 1]});
    Obj Plain (<["b" := VNum 2]> {["arguments" := VRef 2]});
    Obj Plain {["c" := VNum 3]};
    headers_obj sample_prefixed ].

(** A sample input envelope: headers [Authorization] and [x-amzn-trace],
    body [{jsonrpc:"2.0", params:{name:"tool", arguments:{q:"x",
    filter:{deep:1}}}}]. *)
Definition sample_store : list obj :=
  [ Obj Plain (<["interceptorInputVersion" := VStr "1.0"]> {["mcp" := VRef 1]});
    Obj Plain (<["rawGatewayRequest" := VRef 2]> {["gatewayRequest" := VRef 3]});
    Obj Plain {["body" := VStr "{}"]};
    Obj Plain (<["path" := VStr "/mcp"]> (<["httpMethod" := VStr "POST"]>
                (<["headers" := VRef 4]> {["body" := VRef 5]})));
    headers_obj sample_headers;
    Obj Plain (<["jsonrpc" := VStr "2.0"]> {["params" := VRef 6]});
    Obj Plain (<["name" := VStr "tool"]> {["arguments" := VRef 7]});
    Obj Plain (<["q" := VStr "x"]> {["filter" := VRef 8]});
    Obj Plain {["deep" := VNum 1]} ].

(** The same envelope with a body that contains itself. *)
Definition cyclic_store : list obj :=
  [ Obj Plain (<["interceptorInputVersion" := VStr "1.0"]> {["mcp" := VRef 1]});
    Obj Plain (<["rawGatewayRequest" := VRef 2]> {["gatewayRequest" := VRef 3]});
    Obj Plain {["body" := VStr "{}"]};
    Obj Plain (<["path" := VStr "/mcp"]> (<["httpMethod" := VStr "POST"]>
                (<["headers" := VRef 4]> {["body" := VRef 5]})));
    headers_obj sample_headers;
    Obj Plain {["self" := VRef 5]} ].

(** An envelope whose header mapping has a header named [__proto__]. *)
Definition proto_store : list obj :=
  [ Obj Plain (<["interceptorInputVersion" := VStr "1.0"]> {["mcp" := VRef 1]});
    Obj Plain (<["rawGatewayRequest" := VRef 2]> {["gatewayRequest" := VRef 3]});
    Obj Plain {["body" := VStr "{}"]};
    Obj Plain (<["path" := VStr "/mcp"]> (<["httpMethod" := VStr "POST"]>
                (<["headers" := VRef 4]> {["body" := VRef 5]})));
    headers_obj (<["__proto__" := "x"]> {["Authorization" := "t"]});
    Obj Plain ∅ ].

Definition sample_result : list obj :=
  Eval vm_compute in
    match handleInterceptorRequest (VRef 0) sample_store with
    | Ok _ h' => h'
    | Throw _ => []
    end.

(** Two header mappings for [propagateHeaders]. *)
Definition override_store : list obj :=
  [ headers_obj sample_headers;
    headers_obj {["Authorization" := "Bearer other"]} ].

(** The objects [JSON.parse] creates on a store of [base] objects for the
    text of an input envelope with the headers [Authorization] and
    [x-amzn-trace] and the body [{method:"tools/call"}]. *)
Definition parsed_envelope (base : nat) : list obj :=
  [ Obj Plain (<["interceptorInputVersion" := VStr "1.0"]>
                 {["mcp" := VRef (base + 1)]});
    Obj Plain (<["rawGatewayRequest" := VRef (base + 2)]>
                 {["gatewayRequest" := VRef (base + 3)]});
    Obj Plain {["body" := VStr "{}"]};
    Obj Plain (<["headers" := VRef (base + 4)]> {["body" := VRef (base + 5)]});
    headers_obj sample_headers;
    Obj Plain {["method" := VStr "tools/call"]} ].

(** An API Gateway proxy event, as far as the dispatcher reads it. *)
Definition api_event (path method body : val) : obj :=
  Obj Plain (<["path" := path]> (<["httpMethod" := method]> {["body" := body]})).

(** A [JSON.parse] for the sample runs: the text ["{"] is a syntax error,
    any other text parses to the sample envelope. *)
Definition sample_parse (text : val) : P val := λ h,
  if bool_decide (text = VStr "{") then
    Rejected (SyntaxError "Unexpected end of JSON input")
  else Fulfilled (VRef (length h)) (h ++ parsed_envelope (length h)).

(** A renderer for the sample runs: compact text, for values whose strings
    need no escaping. *)
Fixpoint json_text (j : json) : string :=
  match j with
  | JUndefined | JNull | JCut => "null"
  | JBool b => if b then "true" else "false"
  | JNum n => pretty n
  | JStr s => String "034"%char s +:+ String "034"%char ""
  | JObject k fields =>
      "{" +:+ String.concat ","
                (map (λ kv, String "034"%char kv.1 +:+ String "034"%char ":"
                            +:+ json_text kv.2) fields)
      +:+ "}"
  end.

Definition sample_render (h : heap) (v : val) : string :=
  json_text (reify (length h) h v).

(** Events for the sample runs of the dispatcher. *)
Definition direct_event_store : list obj := parsed_envelope 0.

Definition get_event_store : list obj :=
  [ api_event (VStr "/echo") (VStr "GET") VNull ].

Definition echo_event_store : list obj :=
  [ api_event (VStr "/echo") (VStr "POST") (VStr "{...}") ].

Definition intercept_event_store : list obj :=
  [ api_event (VStr "/intercept") (VStr "POST") (VStr "{...}") ].

Definition empty_intercept_event_store : list obj :=
  [ api_event (VStr "/intercept") (VStr "POST") VNull ].

Definition broken_event_store : list obj :=
  [ api_event (VStr "/intercept") (VStr "POST") (VStr "{") ].

(** An envelope whose request has no header mapping; its body is
    [{params:{arguments:{q:"x"}}}]. *)
Definition bare_store : list obj :=
  [ Obj Plain {["mcp" := VRef 1]};
    Obj Plain (<["rawGatewayRequest" := VRef 2]> {["gatewayRequest" := VRef 3]});
    Obj Plain ∅;
    Obj Plain {["body" := VRef 4]};
    Obj Plain {["params" := VRef 5]};
    Obj Plain {["arguments" := VRef 6]};
    Obj Plain {["q" := VStr "x"]} ].

(** * Properties *)

Lemma set_prop_other k v p : k ≠ "__proto__" → set_prop k v p = <[k := v]> p.
Proof. intros Hk. unfold set_prop. by rewrite bool_decide_eq_false_2. Qed.

Lemma set_prop_proto v p :
  p !! "__proto__" = None → set_prop "__proto__" v p = p.
Proof.
  intros Hp. unfold set_prop.
  by rewrite (bool_decide_eq_true_2 (p !! "__proto__" = None)).
Qed.

Section store_loops.
Context (skip : string → bool) (rename : string → string).

Lemma for_each_store entries l o (h : heap) :
  h !! l = Some o →
  for_each entries (λ key value,
    if skip key then ret tt else assign (VRef l) (rename key) value) h
  = Ok tt (<[l := Obj (kind o) (store_entries skip rename entries (props o))]> h).
Proof.
  revert o h. induction entries as [|[k v] rest IH]; intros o h Hl.
  - simpl. unfold ret. f_equal. symmetry. apply list_insert_id.
    by destruct o.
  - simpl. unfold bind at 1. destruct (skip k) eqn:Hs.
    + unfold ret. by apply IH.
    + unfold assign. rewrite Hl.
      pose proof (lookup_lt_Some _ _ _ Hl) as Hlt.
      rewrite (IH (Obj (kind o) (set_prop (rename k) v (props o)))).
      * simpl. by rewrite list_insert_insert_eq.
      * by apply list_lookup_insert_eq.
Qed.

Lemma store_entries_spec `{!Inj (=) (=) rename} entries p :
  NoDup entries.*1 →
  p !! "__proto__" = None →
  store_entries skip rename entries p
  = kmap rename (filter (kept skip rename) (list_to_map entries : gmap string val)) ∪ p.
Proof.
  revert p. induction entries as [|[k v] rest IH]; intros p Hnd Hproto.
  - simpl. rewrite map_filter_empty, kmap_empty. by rewrite (left_id_L ∅ (∪)).
  - apply NoDup_cons in Hnd as [Hk Hnd]. simpl.
    assert ((list_to_map rest : gmap string val) !! k = None) as Hnone.
    { by apply not_elem_of_list_to_map_1. }
    destruct (decide (kept skip rename (k, v))) as [[Hs Hp]|Hnk].
    + simpl in Hs, Hp. rewrite Hs, (set_prop_other _ _ _ Hp).
      rewrite (IH _ Hnd) by by rewrite lookup_insert_ne.
      rewrite map_filter_insert_True by done.
      rewrite kmap_insert by apply _.
      rewrite <- insert_union_l. rewrite insert_union_r; [done|].
      apply lookup_kmap_None; [apply _|].
      intros k0 Hk0. apply (inj rename) in Hk0. subst k0.
      apply map_lookup_filter_None. by left.
    + rewrite map_filter_insert_False by done.
      rewrite delete_id by done.
      destruct (skip k) eqn:Hs; [by apply IH|].
      assert (rename k = "__proto__") as ->.
      { destruct (decide (rename k = "__proto__")); [done|].
        exfalso. apply Hnk. by split. }
      rewrite set_prop_proto by done. by apply IH.
Qed.

(** The entries of an object, stored into another one. *)
Lemma store_map_to_list `{!Inj (=) (=) rename} (m p : gmap string val) :
  p !! "__proto__" = None →
  store_entries skip rename (map_to_list m) p
  = kmap rename (filter (kept skip rename) m) ∪ p.
Proof.
  intros Hp. rewrite store_entries_spec.
  1: by rewrite list_to_map_to_list.
  all: first [apply NoDup_fst_map_to_list | done | apply _].
Qed.

End store_loops.

(** ** Serialization of JSON values never throws *)

Lemma json_tree_ref n (h : heap) l :
  json_tree (S n) h (VRef l) = true ↔
  ∃ o, h !! l = Some o ∧ ∀ k c, props o !! k = Some c → json_tree n h c = true.
Proof.
  simpl. destruct (h !! l) as [o|]; [|split; [done|by intros (? & ? & _)]].
  rewrite forallb_forall. split.
  - intros Hall. exists o. split; [done|]. intros k c Hk.
    apply (Hall (k, c)). apply list_elem_of_In. by apply elem_of_map_to_list.
  - intros (o' & [= <-] & Hall) [k c] Hin.
    apply list_elem_of_In, elem_of_map_to_list in Hin. by apply (Hall k).
Qed.

Lemma json_tree_S n (h : heap) v :
  json_tree n h v = true → json_tree (S n) h v = true.
Proof.
  revert v. induction n as [|n IH]; intros v Hv.
  - by destruct v.
  - destruct v as [| | | | |l]; try done.
    apply json_tree_ref in Hv as (o & Ho & Hall).
    apply json_tree_ref. exists o. split; [done|]. intros k c Hk.
    apply IH. by apply (Hall k).
Qed.

Lemma json_tree_mono n m (h : heap) v :
  n ≤ m → json_tree n h v = true → json_tree m h v = true.
Proof. induction 1; [done|]. intros. apply json_tree_S. auto. Qed.

Lemma json_tree_app n (h new : heap) v :
  json_tree n h v = true → json_tree n (h ++ new) v = true.
Proof.
  revert v. induction n as [|n IH]; intros v Hv.
  - by destruct v.
  - destruct v as [| | | | |l]; try done.
    apply json_tree_ref in Hv as (o & Ho & Hall).
    apply json_tree_ref. exists o. split; [by apply lookup_app_l_Some|].
    intros k c Hk. apply IH. by apply (Hall k).
Qed.

Lemma json_tree_allocated n (h : heap) l :
  json_tree n h (VRef l) = true → l < length h.
Proof.
  destruct n; [done|]. intros (o & Ho & _)%json_tree_ref.
  by apply lookup_lt_Some in Ho.
Qed.

Lemma stack_bound (stack : list nat) m :
  NoDup stack → (∀ s, s ∈ stack → s < m) → length stack ≤ m.
Proof.
  intros Hnd Hlt. rewrite <- (length_seq m 0).
  apply submseteq_length, NoDup_submseteq; [done|].
  intros s Hs. apply elem_of_seq. specialize (Hlt s Hs). lia.
Qed.

Lemma walk_children fuel (h : heap) stack (entries : list (string * val)) :
  (∀ kv, kv ∈ entries → stringify_walk fuel h stack kv.2 = Done) →
  foldr (λ kv rest,
           match stringify_walk fuel h stack kv.2 with
           | Done => rest
           | bad => bad
           end) Done entries = Done.
Proof.
  induction entries as [|kv rest IH]; intros Hall; [done|].
  simpl. rewrite (Hall kv) by left. apply IH. intros ? ?. apply Hall. by right.
Qed.

Lemma stringify_walk_prim fuel (h : heap) stack v :
  (∀ l, v ≠ VRef l) → stringify_walk fuel h stack v = Done.
Proof. intros Hv. destruct v, fuel; try done; by destruct (Hv l). Qed.

Lemma stringify_walk_ref fuel (h : heap) stack l o :
  l ∉ stack → h !! l = Some o →
  stringify_walk (S fuel) h stack (VRef l)
  = foldr (λ kv rest,
             match stringify_walk fuel h (l :: stack) kv.2 with
             | Done => rest
             | bad => bad
             end) Done (map_to_list (props o)).
Proof.
  intros Hl Ho. simpl. by rewrite bool_decide_eq_false_2, Ho.
Qed.

(** Whatever the store holds, cycles included, the fuel of [JSON_stringify]
    suffices. *)
Lemma stringify_walk_enough fuel : ∀ (h : heap) stack v,
  NoDup stack →
  (∀ s, s ∈ stack → s < length h) →
  length h < fuel + length stack →
  stringify_walk fuel h stack v ≠ OutOfFuel.
Proof.
  induction fuel as [|fuel IH]; intros h stack v Hnd Hlt Hfuel.
  { pose proof (stack_bound stack (length h) Hnd Hlt). simpl in Hfuel. lia. }
  destruct v as [| | | | |l]; try done. simpl.
  case_bool_decide as Hin; [done|].
  destruct (h !! l) as [o|] eqn:Ho; [|done].
  assert (∀ c, stringify_walk fuel h (l :: stack) c ≠ OutOfFuel) as Hchild.
  { intros c. apply IH.
    - by apply NoDup_cons.
    - intros s [->|Hs]%elem_of_cons; [by apply lookup_lt_Some in Ho|auto].
    - simpl. lia. }
  induction (map_to_list (props o)) as [|kv rest IHrest]; [done|].
  simpl. specialize (Hchild kv.2).
  by destruct (stringify_walk fuel h (l :: stack) kv.2).
Qed.

(** Inside a JSON value the walk never meets an object of its stack nor runs
    out of fuel. *)
Lemma stringify_walk_fuel n : ∀ fuel (h : heap) stack v,
  json_tree n h v = true →
  (∀ s, s ∈ stack → json_tree n h (VRef s) = false) →
  NoDup stack →
  (∀ s, s ∈ stack → s < length h) →
  length h < fuel + length stack →
  stringify_walk fuel h stack v = Done.
Proof.
  induction n as [|n IH]; intros fuel h stack v Hv Hstack Hnd Hlt Hfuel.
  { destruct v; try done; by apply stringify_walk_prim. }
  destruct v as [| | | | |l]; try by apply stringify_walk_prim.
  assert (∀ s, s ∈ stack → json_tree n h (VRef s) = false) as Hstack'.
  { intros s Hs. destruct (json_tree n h (VRef s)) eqn:E; [|done].
    apply json_tree_S in E. by rewrite (Hstack s Hs) in E. }
  destruct (json_tree n h (VRef l)) eqn:Hl; [by apply IH|].
  pose proof Hv as (o & Ho & Hall)%json_tree_ref.
  assert (l ∉ stack) as Hfresh.
  { intros Hin. by rewrite (Hstack l Hin) in Hv. }
  pose proof (stack_bound stack (length h) Hnd Hlt).
  destruct fuel as [|fuel]; [lia|].
  rewrite (stringify_walk_ref _ _ _ _ o) by done.
  apply walk_children. intros [k c] Hin. simpl.
  apply elem_of_map_to_list in Hin. apply IH.
  - by apply (Hall k).
  - intros s [->|Hs]%elem_of_cons; auto.
  - by apply NoDup_cons.
  - intros s [->|Hs]%elem_of_cons; [by apply lookup_lt_Some in Ho|auto].
  - simpl. lia.
Qed.

Lemma JSON_stringify_tree n (h : heap) v :
  json_tree n h v = true → JSON_stringify v h = Ok tt h.
Proof.
  intros Hv. unfold JSON_stringify.
  rewrite (stringify_walk_fuel n); [done|done|..].
  - by intros s ?%elem_of_nil.
  - constructor.
  - by intros s ?%elem_of_nil.
  - simpl. lia.
Qed.

Lemma json_tree_prim n (h : heap) v :
  (∀ l, v ≠ VRef l) → json_tree n h v = true.
Proof. intros Hv. destruct v, n; try done; by destruct (Hv l). Qed.

Create HintDb tree.
#[local] Hint Resolve json_tree_S json_tree_app json_tree_prim : tree.

(** ** Stability of reads under allocation *)

Lemma lookup_new (h : heap) o : (h ++ [o]) !! length h = Some o.
Proof. by apply list_lookup_middle. Qed.

Lemma insert_new (h : heap) o o' : <[length h := o']> (h ++ [o]) = h ++ [o'].
Proof.
  rewrite insert_app_r_alt by lia. by rewrite Nat.sub_diag.
Qed.

Lemma own_props_app n (h new : heap) v :
  json_tree n h v = true → own_props (h ++ new) v = own_props h v.
Proof.
  destruct v as [| | | | |l]; try done. intros Hl%json_tree_allocated.
  simpl. by rewrite lookup_app_l.
Qed.

Lemma char_entries_str s k c :
  (list_to_map (char_entries s) : gmap string val) !! k = Some c →
  ∃ a, c = VStr (String a "").
Proof.
  intros Hin%elem_of_list_to_map_2. unfold char_entries in Hin.
  apply list_elem_of_lookup in Hin as [i Hi].
  rewrite list_lookup_imap in Hi.
  destruct (String.list_ascii_of_string s !! i) as [a|]; [|done].
  exists a. by injection Hi.
Qed.

(** The properties of a JSON value are JSON values. *)
Lemma own_props_tree n (h : heap) v k c :
  json_tree n h v = true → own_props h v !! k = Some c →
  json_tree n h c = true.
Proof.
  destruct v as [| | | |s|l]; try done.
  - intros _ [a ->]%char_entries_str. by destruct n.
  - destruct n; [done|]. intros (o & Ho & Hall)%json_tree_ref.
    simpl. rewrite Ho. simpl. intros Hk.
    apply json_tree_S. by apply (Hall k).
Qed.

Lemma json_tree_new n (h : heap) p :
  (∀ k c, p !! k = Some c → json_tree n h c = true) →
  json_tree (S n) (h ++ [Obj Plain p]) (VRef (length h)) = true.
Proof.
  intros Hall. apply json_tree_ref. exists (Obj Plain p).
  split; [apply lookup_new|]. intros k c Hk.
  apply json_tree_app. by apply (Hall k).
Qed.

(** ** The loops, run on the store *)

Section run_loops.
Context (skip : string → bool) (rename : string → string).

Lemma store_entries_values (Q : val → Prop) entries p :
  (∀ kv, kv ∈ entries → Q kv.2) →
  (∀ k c, p !! k = Some c → Q c) →
  ∀ k c, store_entries skip rename entries p !! k = Some c → Q c.
Proof.
  revert p. induction entries as [|[k0 v0] rest IH]; intros p Hes Hp; [done|].
  simpl. apply IH.
  - intros kv Hkv. apply Hes. by right.
  - intros k c. destruct (skip k0); [apply Hp|].
    unfold set_prop. destruct (_ && _); [apply Hp|].
    intros [[_ <-]|[_ Hk]]%lookup_insert_Some; [|by apply (Hp k)].
    apply (Hes (k0, v0)). by left.
Qed.

Lemma loop_over_values (Q : val → Prop) (h : heap) v p :
  (∀ k c, own_props h v !! k = Some c → Q c) →
  (∀ k c, p !! k = Some c → Q c) →
  ∀ k c, loop_over skip rename h v p !! k = Some c → Q c.
Proof.
  intros Hv Hp. unfold loop_over. destruct (truthy v); [|done].
  apply store_entries_values; [|done].
  intros [k c] Hin%elem_of_map_to_list. by apply (Hv k).
Qed.

Lemma loop_run n (h : heap) v p :
  json_tree n h v = true →
  (let! entries := Object_entries v in
   for_each entries (λ key value,
     if skip key then ret tt
     else assign (VRef (length h)) (rename key) value)) (h ++ [Obj Plain p])
  = Ok tt (h ++ [Obj Plain (store_entries skip rename
                              (map_to_list (own_props h v)) p)]).
Proof.
  intros Hv. unfold bind, Object_entries.
  rewrite (own_props_app n) by done.
  rewrite (for_each_store skip rename _ _ (Obj Plain p)) by apply lookup_new.
  simpl. by rewrite insert_new.
Qed.

Lemma guarded_loop_run n (h : heap) v p :
  json_tree n h v = true →
  (if truthy v then
     let! entries := Object_entries v in
     for_each entries (λ key value,
       if skip key then ret tt
       else assign (VRef (length h)) (rename key) value)
   else ret tt) (h ++ [Obj Plain p])
  = Ok tt (h ++ [Obj Plain (loop_over skip rename h v p)]).
Proof.
  intros Hv. unfold loop_over. destruct (truthy v); [|done].
  by apply (loop_run n).
Qed.

End run_loops.

Lemma propagated_tree n (h : heap) incomingHeaders additionalHeaders k c :
  json_tree n h incomingHeaders = true →
  json_tree n h additionalHeaders = true →
  propagated h incomingHeaders additionalHeaders !! k = Some c →
  json_tree n h c = true.
Proof.
  intros Hi Ha. revert k c. apply loop_over_values.
  - intros k c. by apply own_props_tree.
  - apply loop_over_values; [|done]. intros k c. by apply own_props_tree.
Qed.

Lemma propagateHeaders_run n (h : heap) incomingHeaders additionalHeaders :
  json_tree n h incomingHeaders = true →
  json_tree n h additionalHeaders = true →
  propagateHeaders incomingHeaders additionalHeaders h
  = Ok (VRef (length h))
       (h ++ [Obj Plain (propagated h incomingHeaders additionalHeaders)]).
Proof.
  intros Hi Ha. unfold propagateHeaders.
  unfold bind at 1. unfold alloc at 1, empty_object.
  unfold bind at 1.
  pose proof (guarded_loop_run no_skip id n h incomingHeaders ∅ Hi) as E1.
  unfold no_skip in E1 at 1. simpl in E1. rewrite E1. clear E1.
  unfold bind at 1.
  pose proof (guarded_loop_run no_skip id n h additionalHeaders
                (loop_over no_skip id h incomingHeaders ∅) Ha) as E2.
  unfold no_skip in E2 at 1. simpl in E2. rewrite E2. clear E2.
  fold (propagated h incomingHeaders additionalHeaders).
  unfold bind, console_log_json.
  rewrite (JSON_stringify_tree (S n)); [done|].
  apply json_tree_new. intros k c. by apply propagated_tree.
Qed.

Lemma prefixed_tree n (h : heap) headers k c :
  json_tree n h headers = true →
  prefixed h headers !! k = Some c → json_tree n h c = true.
Proof.
  intros Hv. revert k c. apply loop_over_values; [|done].
  intros k c. by apply own_props_tree.
Qed.

Lemma filterAndPrefixHeaders_run n (h : heap) headers :
  json_tree n h headers = true →
  filterAndPrefixHeaders headers h
  = Ok (VRef (length h)) (h ++ [Obj Plain (prefixed h headers)]).
Proof.
  intros Hv. unfold filterAndPrefixHeaders.
  unfold bind at 1. unfold alloc at 1, empty_object.
  pose proof (prefixed_tree n h headers) as Htree.
  unfold prefixed, loop_over in *.
  destruct (truthy headers); [simpl|done].
  unfold bind at 1. unfold Object_entries at 1.
  rewrite (own_props_app n) by done.
  unfold bind at 1.
  rewrite (for_each_store is_amzn mcp_header _ _ (Obj Plain ∅))
    by apply lookup_new.
  simpl. rewrite insert_new.
  unfold bind, console_log_json.
  rewrite (JSON_stringify_tree (S n)); [done|].
  apply json_tree_new. intros k c. by apply Htree.
Qed.

(** ** The body-reshaping step, run on the store *)

Lemma get_prop_field (h : heap) v k :
  nullish v = false → get_prop v k h = Ok (field h v k) h.
Proof. by destruct v. Qed.

Lemma truthy_not_nullish v : truthy v = true → nullish v = false.
Proof. by destruct v. Qed.

Lemma field_tree n (h : heap) v k :
  json_tree n h v = true → json_tree n h (field h v k) = true.
Proof.
  intros Hv. unfold field. destruct (own_props h v !! k) as [c|] eqn:E.
  - by apply (own_props_tree n h v k).
  - by destruct n.
Qed.

Lemma spread_or_empty_tree n (h : heap) v k c :
  json_tree n h v = true → spread_or_empty h v !! k = Some c →
  json_tree n h c = true.
Proof.
  intros Hv. unfold spread_or_empty. destruct (truthy v); [|done].
  by apply own_props_tree.
Qed.

(** [v || {}] on a store that has grown by [mid] since [v] was read. *)
Lemma or_empty_run n (h mid : heap) v :
  json_tree n h v = true →
  ∃ v', or_empty v (h ++ mid) = Ok v' (h ++ mid ++ fresh_objects v)
        ∧ nullish v' = false
        ∧ ∀ new, own_props (h ++ (mid ++ fresh_objects v) ++ new) v'
                 = spread_or_empty h v.
Proof.
  intros Hv. unfold or_empty, fresh_objects, spread_or_empty.
  destruct (truthy v) eqn:Ht.
  - exists v. rewrite (right_id_L [] (++)). split; [done|].
    split; [by apply truthy_not_nullish|].
    intros new. by apply (own_props_app n).
  - exists (VRef (length (h ++ mid))). unfold alloc, empty_object.
    rewrite <- (assoc_L (++)). split; [done|]. split; [done|].
    intros new. simpl.
    rewrite !(assoc_L (++)), <- (assoc_L (++) (h ++ mid)).
    rewrite lookup_app_r by lia. by rewrite Nat.sub_diag.
Qed.

Lemma mergeBody_run n (h : heap) lb prefixedHeaders :
  json_tree n h (VRef lb) = true →
  json_tree n h prefixedHeaders = true →
  mergeBody (VRef lb) prefixedHeaders h
  = Ok (VRef (merged_body_loc h (VRef lb)))
       (h ++ merged h (VRef lb) prefixedHeaders).
Proof.
  intros Hb Hp. unfold mergeBody.
  unfold bind at 1. rewrite get_prop_field by done.
  pose proof (field_tree n h (VRef lb) "params" Hb) as Hpf.
  destruct (or_empty_run n h [] _ Hpf) as (pv & Epv & Npv & Opv).
  rewrite (right_id_L [] (++)) in Epv. simpl in Epv, Opv.
  unfold bind at 1. rewrite Epv.
  unfold bind at 1. rewrite get_prop_field by done.
  assert (field (h ++ fresh_objects (field h (VRef lb) "params")) pv "arguments"
          = arguments_field h (VRef lb)) as ->.
  { unfold field at 1, arguments_field, params_of.
    by rewrite <- (Opv []), (right_id_L [] (++)). }
  assert (json_tree n h (arguments_field h (VRef lb)) = true) as Haf.
  { unfold arguments_field.
    destruct (params_of h (VRef lb) !! "arguments") as [c|] eqn:E.
    - by apply (spread_or_empty_tree n h _ _ _ Hpf E).
    - by destruct n. }
  destruct (or_empty_run n h (fresh_objects (field h (VRef lb) "params")) _ Haf)
    as (ev & Eev & Nev & Oev).
  unfold bind at 1. rewrite Eev.
  fold (merge_defaults h (VRef lb)) in *.
  set (D := merge_defaults h (VRef lb)) in *.
  assert (own_props (h ++ D) prefixedHeaders = own_props h prefixedHeaders)
    as E1 by by apply (own_props_app n).
  assert (own_props (h ++ D) ev = arguments_of h (VRef lb)) as E2.
  { specialize (Oev []). by rewrite (right_id_L [] (++)) in Oev. }
  assert (∀ X, own_props (h ++ D ++ X) pv = params_of h (VRef lb)) as E3.
  { intros X. subst D. unfold merge_defaults.
    rewrite <- (assoc_L (++)). apply Opv. }
  assert (∀ X, own_props (h ++ D ++ X) (VRef lb) = own_props h (VRef lb)) as E4.
  { intros X. by apply (own_props_app n). }
  unfold bind, alloc. rewrite E1, E2.
  rewrite <- !(assoc_L (++)). rewrite E3, E4.
  unfold merged, merged_objects, merged_body_loc, merged_params_loc,
    merged_arguments_loc. fold D.
  rewrite !length_app. simpl.
  replace (length h + (length D + 1)) with (S (length h + length D)) by lia.
  replace (length h + (length D + 2)) with (S (S (length h + length D))) by lia.
  done.
Qed.

(** ** Header mappings *)

Lemma headers_obj_tree (h : heap) l H :
  h !! l = Some (headers_obj H) → json_tree 1 h (VRef l) = true.
Proof.
  intros Hl. apply json_tree_ref. exists (headers_obj H). split; [done|].
  intros k c. simpl. by intros (s & <- & _)%lookup_fmap_Some.
Qed.

Lemma own_props_headers (h : heap) l H :
  h !! l = Some (headers_obj H) → own_props h (VRef l) = VStr <$> H.
Proof. intros Hl. simpl. by rewrite Hl. Qed.

Global Instance mcp_header_inj : Inj (=) (=) mcp_header.
Proof. unfold mcp_header. apply _. Qed.

Lemma mcp_header_not_proto key : mcp_header key ≠ "__proto__".
Proof. done. Qed.

Lemma map_size_kmap_inj (rename : string → string) `{!Inj (=) (=) rename}
    (m : gmap string val) :
  size (kmap rename m : gmap string val) = size m.
Proof.
  induction m as [|k x m Hk IH] using map_ind.
  - by rewrite kmap_empty.
  - rewrite kmap_insert by apply _.
    rewrite !map_size_insert_None; [by rewrite IH|done|].
    apply lookup_kmap_None; [apply _|].
    by intros k0 ->%(inj rename).
Qed.

(** What [filterAndPrefixHeaders] builds from a header mapping. *)
Lemma prefixed_headers (h : heap) l H :
  h !! l = Some (headers_obj H) →
  prefixed h (VRef l)
  = kmap mcp_header (filter (λ kv, is_amzn kv.1 = false) (VStr <$> H)).
Proof.
  intros Hl. unfold prefixed, loop_over. simpl truthy. cbv iota.
  rewrite (own_props_headers h l H Hl).
  rewrite store_map_to_list by first [done | apply _].
  rewrite (right_id_L ∅ (∪)). f_equal.
  apply map_filter_ext. intros k v _. unfold kept. simpl.
  split; [by intros [? _]|]. intros ?. split; [done|].
  apply mcp_header_not_proto.
Qed.

(** What [propagateHeaders] builds from two header mappings: every name
    but [__proto__]. *)
Lemma assigned_headers (m p : gmap string val) :
  p !! "__proto__" = None →
  store_entries no_skip id (map_to_list m) p = delete "__proto__" m ∪ p.
Proof.
  intros Hp. rewrite store_map_to_list by first [done | apply _]. f_equal.
  apply map_eq. intros k.
  destruct (decide (k = "__proto__")) as [->|Hk].
  - rewrite lookup_delete_eq. apply lookup_kmap_None; [apply _|].
    intros k0 Hk0. unfold id in Hk0. subst k0. apply map_lookup_filter_None. right.
    intros x _ [_ Hx]. by apply Hx.
  - rewrite lookup_delete_ne by done.
    change k with (id k) at 1. rewrite lookup_kmap by apply _.
    destruct (m !! k) as [x|] eqn:E.
    + apply map_lookup_filter_Some. by split.
    + apply map_lookup_filter_None. by left.
Qed.

Lemma propagated_headers (h : heap) l1 l2 H1 H2 :
  h !! l1 = Some (headers_obj H1) →
  h !! l2 = Some (headers_obj H2) →
  propagated h (VRef l1) (VRef l2)
  = VStr <$> (delete "__proto__" H2 ∪ delete "__proto__" H1).
Proof.
  intros E1 E2. unfold propagated, loop_over. simpl truthy. cbv iota.
  rewrite (own_props_headers h l1 H1 E1), (own_props_headers h l2 H2 E2).
  rewrite (assigned_headers _ ∅), (right_id_L ∅ (∪)) by done.
  rewrite assigned_headers by apply lookup_delete_eq.
  by rewrite map_fmap_union, !fmap_delete.
Qed.

(** [propagateHeaders] on two header mappings, and on absent ones: it never
    fails, and forwards every name but [__proto__]. *)
Lemma propagateHeaders_headers (h : heap) l1 l2 H1 H2 :
  h !! l1 = Some (headers_obj H1) →
  h !! l2 = Some (headers_obj H2) →
  propagateHeaders (VRef l1) (VRef l2) h
  = Ok (VRef (length h))
       (h ++ [headers_obj (delete "__proto__" H2 ∪ delete "__proto__" H1)])
  ∧ propagateHeaders VUndefined VUndefined h
    = Ok (VRef (length h)) (h ++ [headers_obj ∅]).
Proof.
  intros E1 E2. split.
  - rewrite (propagateHeaders_run 1).
    + by rewrite (propagated_headers h l1 l2 H1 H2).
    + by apply (headers_obj_tree h l1 H1).
    + by apply (headers_obj_tree h l2 H2).
  - rewrite (propagateHeaders_run 0) by done.
    unfold propagated, loop_over, headers_obj. simpl. by rewrite fmap_empty.
Qed.

Lemma propagated_incoming (h : heap) l H :
  h !! l = Some (headers_obj H) →
  propagated h (VRef l) VUndefined = VStr <$> delete "__proto__" H.
Proof.
  intros E. unfold propagated, loop_over. simpl truthy. cbv iota.
  rewrite (own_props_headers h l H E).
  by rewrite assigned_headers, (right_id_L ∅ (∪)), fmap_delete.
Qed.

Lemma amzn_split (H : gmap string string) :
  size H = size (filter (λ kv, is_amzn kv.1 = true) H)
           + size (filter (λ kv, is_amzn kv.1 = false) H).
Proof.
  rewrite <- (map_filter_union_complement (λ kv, is_amzn kv.1 = true) H) at 1.
  rewrite map_size_disj_union by apply map_disjoint_filter_complement.
  f_equal. f_equal. apply map_filter_ext. intros k s _. simpl.
  by destruct (is_amzn k).
Qed.

Lemma startsWith_mcp_header key :
  startsWith (mcp_header key) "mcp_header_" = true.
Proof. unfold startsWith, mcp_header. simpl. by destruct key. Qed.

(** Every key [filterAndPrefixHeaders] produces starts with the marker. *)
Lemma prefixed_keys (h : heap) headers k :
  is_Some (prefixed h headers !! k) → startsWith k "mcp_header_" = true.
Proof.
  unfold prefixed, loop_over. destruct (truthy headers).
  - rewrite store_map_to_list by first [done | apply _]. rewrite (right_id_L ∅ (∪)).
    intros (k0 & -> & _)%lookup_kmap_is_Some; [|apply _].
    apply startsWith_mcp_header.
  - rewrite lookup_empty. by intros [? ?].
Qed.

(** ** The merged objects in the final store *)

(** A falsy value has no own properties, so the default [{}] changes the
    reference that is spread, never the properties. *)
Lemma spread_or_empty_own (h : heap) v : spread_or_empty h v = own_props h v.
Proof.
  unfold spread_or_empty. destruct v as [| |b|n|s|l]; simpl; try done.
  - by destruct b.
  - by destruct (n =? 0)%Z.
  - case_bool_decide as Hs; [by subst s|done].
Qed.

Lemma params_of_own (h : heap) originalBody :
  params_of h originalBody = own_props h (field h originalBody "params").
Proof. apply spread_or_empty_own. Qed.

Lemma arguments_of_own (h : heap) originalBody :
  arguments_of h originalBody
  = own_props h (field h (field h originalBody "params") "arguments").
Proof.
  unfold arguments_of, arguments_field. rewrite spread_or_empty_own.
  by rewrite params_of_own.
Qed.

Lemma merged_objects_lookup (h : heap) defaults
    (prefixedHeaders existingArguments params originalBody : gmap string val) :
  let la := length h + length defaults in
  let h' := h ++ merged_objects (length h) defaults prefixedHeaders
                   existingArguments params originalBody in
  h' !! la = Some (Obj Plain (prefixedHeaders ∪ existingArguments))
  ∧ h' !! S la = Some (Obj Plain (<["arguments" := VRef la]> params))
  ∧ h' !! S (S la) = Some (Obj Plain (<["params" := VRef (S la)]> originalBody)).
Proof.
  intros la h'. subst h'. unfold merged_objects.
  rewrite (assoc_L (++)).
  assert (length (h ++ defaults) = la) as E by by rewrite length_app.
  repeat split.
  - rewrite lookup_app_r by lia. by rewrite E, Nat.sub_diag.
  - rewrite lookup_app_r by lia.
    by replace (S la - length (h ++ defaults)) with 1 by lia.
  - rewrite lookup_app_r by lia.
    by replace (S (S la) - length (h ++ defaults)) with 2 by lia.
Qed.

Lemma merged_own_props (h : heap) originalBody prefixedHeaders :
  let h' := h ++ merged h originalBody prefixedHeaders in
  own_props h' (VRef (merged_arguments_loc h originalBody))
  = own_props h prefixedHeaders ∪ arguments_of h originalBody
  ∧ own_props h' (VRef (merged_params_loc h originalBody))
    = <["arguments" := VRef (merged_arguments_loc h originalBody)]>
        (params_of h originalBody)
  ∧ own_props h' (VRef (merged_body_loc h originalBody))
    = <["params" := VRef (merged_params_loc h originalBody)]>
        (own_props h originalBody).
Proof.
  intros h'. subst h'. unfold merged, merged_body_loc, merged_params_loc,
    merged_arguments_loc.
  destruct (merged_objects_lookup h (merge_defaults h originalBody)
              (own_props h prefixedHeaders) (arguments_of h originalBody)
              (params_of h originalBody) (own_props h originalBody))
    as (E1 & E2 & E3).
  simpl. by rewrite E1, E2, E3.
Qed.

(** ** The handler, run on the store *)

Lemma merged_tree n (h : heap) originalBody prefixedHeaders :
  json_tree n h originalBody = true →
  json_tree n h prefixedHeaders = true →
  json_tree (S (S (S n))) (h ++ merged h originalBody prefixedHeaders)
    (VRef (merged_body_loc h originalBody)) = true.
Proof.
  intros Hb Hp.
  assert (json_tree n h (field h originalBody "params") = true) as Hpf
    by by apply field_tree.
  assert (∀ k c, params_of h originalBody !! k = Some c →
                 json_tree n h c = true) as Hparams.
  { intros k c. by apply spread_or_empty_tree. }
  assert (∀ k c, arguments_of h originalBody !! k = Some c →
                 json_tree n h c = true) as Hargs.
  { intros k c. apply spread_or_empty_tree. unfold arguments_field.
    destruct (params_of h originalBody !! "arguments") as [a|] eqn:E.
    - by apply (Hparams "arguments").
    - by destruct n. }
  unfold merged, merged_objects, merged_body_loc, merged_params_loc,
    merged_arguments_loc.
  set (D := merge_defaults h originalBody).
  rewrite (assoc_L (++) h D), <- (length_app h D).
  set (X := h ++ D).
  assert (∀ c, json_tree n h c = true → json_tree n X c = true) as HX.
  { intros c. apply json_tree_app. }
  set (A := Obj Plain (own_props h prefixedHeaders ∪ arguments_of h originalBody)).
  set (P := Obj Plain (<["arguments" := VRef (length X)]>
                         (params_of h originalBody))).
  set (B := Obj Plain (<["params" := VRef (S (length X))]>
                         (own_props h originalBody))).
  assert (json_tree (S n) (X ++ [A]) (VRef (length X)) = true) as HA.
  { apply json_tree_new. intros k c [Hc|[_ Hc]]%lookup_union_Some_raw.
    - apply HX. by apply (own_props_tree n h prefixedHeaders k).
    - apply HX. by apply (Hargs k). }
  assert (json_tree (S (S n)) ((X ++ [A]) ++ [P]) (VRef (S (length X))) = true)
    as HP.
  { replace (S (length X)) with (length (X ++ [A]))
      by (rewrite length_app; simpl; lia).
    apply json_tree_new. intros k c [[_ <-]|[_ Hc]]%lookup_insert_Some; [done|].
    apply json_tree_S, json_tree_app, HX. by apply (Hparams k). }
  replace (X ++ [A; P; B]) with (((X ++ [A]) ++ [P]) ++ [B])
    by by rewrite <- !(assoc_L (++)).
  replace (S (S (length X))) with (length ((X ++ [A]) ++ [P]))
    by (rewrite !length_app; simpl; lia).
  apply json_tree_new. intros k c [[_ <-]|[_ Hc]]%lookup_insert_Some.
  - exact HP.
  - apply json_tree_S, json_tree_S, json_tree_app, json_tree_app, HX.
    by apply (own_props_tree n h originalBody k).
Qed.

Lemma prefixed_app n (h new : heap) headers :
  json_tree n h headers = true →
  prefixed (h ++ new) headers = prefixed h headers.
Proof.
  intros Hv. unfold prefixed, loop_over. by rewrite (own_props_app n).
Qed.

Lemma gateway_request_Some (h : heap) input gatewayRequest :
  gateway_request h input = Some gatewayRequest →
  nullish input = false
  ∧ nullish (field h input "mcp") = false
  ∧ nullish (field h (field h input "mcp") "rawGatewayRequest") = false
  ∧ gatewayRequest = field h (field h input "mcp") "gatewayRequest"
  ∧ nullish gatewayRequest = false.
Proof.
  unfold gateway_request.
  destruct (nullish input); [done|].
  destruct (nullish (field h input "mcp")); [done|].
  destruct (nullish (field h (field h input "mcp") "rawGatewayRequest")); [done|].
  destruct (nullish (field h (field h input "mcp") "gatewayRequest")) eqn:E;
    [done|].
  intros [= <-]. by rewrite E.
Qed.

Lemma gateway_request_tree n (h : heap) input gatewayRequest :
  json_tree n h input = true →
  gateway_request h input = Some gatewayRequest →
  json_tree n h gatewayRequest = true.
Proof.
  intros Hi (_ & _ & _ & -> & _)%gateway_request_Some.
  by do 2 apply field_tree.
Qed.

Lemma handler_objects_split (h : heap) request_headers request_body :
  let h2 := headers_done h request_headers in
  let h3 := h2 ++ merged h2 request_body (VRef (prefixed_loc h)) in
  h ++ handler_objects h request_headers request_body
  = h3 ++ envelope_objects (request_loc h request_headers request_body)
            (VRef (forwarded_loc h)) (VRef (merged_body_loc h2 request_body)).
Proof.
  intros h2 h3. subst h3 h2. unfold handler_objects, request_loc, headers_done.
  by rewrite <- !(assoc_L (++)).
Qed.

Lemma envelope_lookup (h3 : heap) headers mergedBody :
  let h' := h3 ++ envelope_objects (length h3) headers mergedBody in
  own_props h' (VRef (length h3))
  = <["headers" := headers]> (<["body" := mergedBody]> ∅)
  ∧ own_props h' (VRef (S (length h3)))
    = <["transformedGatewayRequest" := VRef (length h3)]> ∅
  ∧ own_props h' (VRef (S (S (length h3))))
    = <["interceptorOutputVersion" := VStr "1.0"]>
        (<["mcp" := VRef (S (length h3))]> ∅).
Proof.
  intros h'. subst h'. unfold envelope_objects. simpl.
  rewrite !lookup_app_r by lia.
  rewrite Nat.sub_diag.
  replace (S (length h3) - length h3) with 1 by lia.
  by replace (S (S (length h3)) - length h3) with 2 by lia.
Qed.

Lemma field_own (h : heap) v k x :
  own_props h v !! k = Some x → field h v k = x.
Proof. intros Hk. unfold field. by rewrite Hk. Qed.

Lemma own_props_old (h new : heap) l :
  l < length h → own_props (h ++ new) (VRef l) = own_props h (VRef l).
Proof. intros Hl. simpl. by rewrite lookup_app_l. Qed.

Lemma field_app n (h new : heap) v k :
  json_tree n h v = true → field (h ++ new) v k = field h v k.
Proof. intros Hv. unfold field. by rewrite (own_props_app n). Qed.

Lemma length_merged (h : heap) originalBody prefixedHeaders :
  length (h ++ merged h originalBody prefixedHeaders)
  = S (merged_body_loc h originalBody).
Proof.
  unfold merged, merged_objects, merged_body_loc, merged_params_loc,
    merged_arguments_loc.
  rewrite !length_app. simpl. lia.
Qed.

Lemma merged_body_loc_ge (h : heap) originalBody :
  length h ≤ merged_arguments_loc h originalBody.
Proof. unfold merged_arguments_loc. lia. Qed.

(** The three runs the handler is composed of. *)
Lemma handler_steps n (h : heap) request_headers lb :
  json_tree n h request_headers = true →
  json_tree n h (VRef lb) = true →
  let h1 := h ++ [Obj Plain (propagated h request_headers VUndefined)] in
  let h2 := headers_done h request_headers in
  propagateHeaders request_headers VUndefined h = Ok (VRef (forwarded_loc h)) h1
  ∧ filterAndPrefixHeaders request_headers h1 = Ok (VRef (prefixed_loc h)) h2
  ∧ mergeBody (VRef lb) (VRef (prefixed_loc h)) h2
    = Ok (VRef (merged_body_loc h2 (VRef lb)))
         (h2 ++ merged h2 (VRef lb) (VRef (prefixed_loc h)))
  ∧ json_tree (S n) h2 (VRef lb) = true
  ∧ json_tree (S n) h2 (VRef (prefixed_loc h)) = true
  ∧ own_props h2 (VRef (prefixed_loc h)) = prefixed h request_headers
  ∧ own_props h2 (VRef (forwarded_loc h))
    = propagated h request_headers VUndefined.
Proof.
  intros Hh Hb h1 h2.
  assert (h2 = h1 ++ [Obj Plain (prefixed h request_headers)]) as E2.
  { subst h1 h2. unfold headers_done. by rewrite <- (assoc_L (++)). }
  assert (length h1 = prefixed_loc h) as El1.
  { subst h1. rewrite length_app. unfold prefixed_loc. simpl. lia. }
  assert (json_tree (S n) h2 (VRef lb) = true) as Hb2.
  { rewrite E2. subst h1. auto with tree. }
  assert (json_tree (S n) h2 (VRef (prefixed_loc h)) = true) as Hp2.
  { rewrite E2, <- El1. apply json_tree_new. intros k c Hk.
    apply json_tree_app. by apply (prefixed_tree n h request_headers k). }
  split.
  { by apply (propagateHeaders_run n); [|apply json_tree_prim]. }
  split.
  { rewrite E2, <- El1, <- (prefixed_app n h [Obj Plain
      (propagated h request_headers VUndefined)]) by done.
    apply (filterAndPrefixHeaders_run n). by apply json_tree_app. }
  split; [by apply (mergeBody_run (S n))|].
  split; [done|]. split; [done|].
  split.
  - rewrite E2, <- El1. simpl. by rewrite lookup_new.
  - subst h2. unfold headers_done, forwarded_loc. simpl.
    by rewrite (list_lookup_middle h).
Qed.

(** One property read of the handler, and one log line on a JSON value. *)
Ltac read_field :=
  unfold bind at 1; rewrite get_prop_field by done.
Ltac log_tree n :=
  unfold bind at 1, console_log_json at 1;
  rewrite (JSON_stringify_tree n) by done.

Section handler.
Context (n : nat) (h : list obj) (input gatewayRequest : val) (lb : loc).
Hypothesis Hinput : json_tree n h input = true.
Hypothesis Hrequest : gateway_request h input = Some gatewayRequest.
Hypothesis Hbody : field h gatewayRequest "body" = VRef lb.

Lemma handler_run :
  handleInterceptorRequest input h
  = Ok (VRef (output_loc h (field h gatewayRequest "headers") (VRef lb)))
       (h ++ handler_objects h (field h gatewayRequest "headers") (VRef lb)).
Proof.
  pose proof (gateway_request_tree n h input gatewayRequest Hinput Hrequest)
    as Hgt.
  pose proof (gateway_request_Some h input gatewayRequest Hrequest)
    as (N1 & N2 & N3 & Egr & N4).
  set (hdrs := field h gatewayRequest "headers").
  assert (json_tree n h hdrs = true) as Hh by by apply field_tree.
  assert (json_tree n h (VRef lb) = true) as Hb.
  { rewrite <- Hbody. by apply field_tree. }
  unfold handleInterceptorRequest.
  log_tree n.
  do 4 read_field. rewrite <- Egr.
  do 3 read_field. fold hdrs.
  log_tree n.
  read_field. rewrite Hbody.
  log_tree n.
  unfold bind at 1.
  rewrite (propagateHeaders_run n) by (done || by apply json_tree_prim).
  set (o1 := Obj Plain (propagated h hdrs VUndefined)).
  unfold bind at 1.
  rewrite (filterAndPrefixHeaders_run n) by by apply json_tree_app.
  rewrite (prefixed_app n) by done.
  set (o2 := Obj Plain (prefixed h hdrs)).
  assert ((h ++ [o1]) ++ [o2] = headers_done h hdrs) as Eh2.
  { unfold headers_done. by rewrite <- (assoc_L (++)). }
  assert (length (h ++ [o1]) = prefixed_loc h) as El1.
  { rewrite length_app. unfold prefixed_loc. simpl. lia. }
  rewrite El1.
  assert (json_tree (S n) ((h ++ [o1]) ++ [o2]) (VRef (prefixed_loc h)) = true)
    as Hp2.
  { rewrite <- El1. apply json_tree_new. intros k c Hk.
    apply json_tree_app. by apply (prefixed_tree n h hdrs k). }
  assert (json_tree (S n) (h ++ [o1]) (VRef (forwarded_loc h)) = true) as Hf1.
  { apply json_tree_new. intros k c Hk.
    apply (propagated_tree n h hdrs VUndefined k); [done| |done].
    by apply json_tree_prim. }
  rewrite Eh2 in *. set (h2 := headers_done h hdrs) in *.
  assert (json_tree (S n) h2 (VRef lb) = true) as Hb2.
  { rewrite <- Eh2. by apply json_tree_S, json_tree_app, json_tree_app. }
  unfold bind at 1. rewrite (mergeBody_run (S n)) by done.
  pose proof (merged_tree (S n) h2 (VRef lb) (VRef (prefixed_loc h)) Hb2 Hp2)
    as Hm.
  set (body_objects := merged h2 (VRef lb) (VRef (prefixed_loc h))) in *.
  set (lm := merged_body_loc h2 (VRef lb)) in *.
  set (h3 := h2 ++ body_objects) in *.
  assert (json_tree (S (S (S (S n)))) h3 (VRef (forwarded_loc h)) = true) as Hf3.
  { do 3 apply json_tree_S. subst h3. rewrite <- Eh2.
    by do 2 apply json_tree_app. }
  unfold bind at 1, alloc at 1. unfold bind at 1, alloc at 1.
  unfold bind at 1, alloc at 1.
  set (t := Obj Plain (<["headers" := VRef (length h)]>
                         (<["body" := VRef lm]> ∅))).
  set (m := Obj Plain (<["transformedGatewayRequest" := VRef (length h3)]> ∅)).
  set (o := Obj Plain (<["interceptorOutputVersion" := VStr "1.0"]>
                         (<["mcp" := VRef (length (h3 ++ [t]))]> ∅))).
  assert (json_tree (5 + n) (h3 ++ [t]) (VRef (length h3)) = true) as Ht.
  { apply json_tree_new. intros k c.
    intros [[_ <-]|[_ [[_ <-]|[_ Hc]]%lookup_insert_Some]]%lookup_insert_Some;
      done. }
  assert (json_tree (6 + n) ((h3 ++ [t]) ++ [m]) (VRef (length (h3 ++ [t])))
          = true) as Hmcp.
  { apply json_tree_new. intros k c.
    by intros [[_ <-]|[_ Hc]]%lookup_insert_Some. }
  unfold bind, console_log_json, ret.
  rewrite (JSON_stringify_tree (7 + n)).
  2:{ apply json_tree_new. intros k c.
      intros [[_ <-]|[_ [[_ <-]|[_ Hc]]%lookup_insert_Some]]%lookup_insert_Some;
        done. }
  f_equal.
  - f_equal. unfold output_loc, mcp_loc, request_loc.
    fold h2 body_objects. subst h3. rewrite !length_app. simpl. lia.
  - unfold handler_objects, envelope_objects. fold h2 body_objects lm.
    subst h3 t m o. rewrite !length_app. simpl.
    replace (length h2 + length body_objects + 1)
      with (S (length h2 + length body_objects)) by lia.
    unfold forwarded_loc.
    subst h2. unfold headers_done at 1 5.
    by rewrite <- !(assoc_L (++)).
Qed.

(** The output envelope, object by object, in terms of the input store. *)
Lemma handler_output :
  let request_headers := field h gatewayRequest "headers" in
  let params := field h (VRef lb) "params" in
  ∃ (lf la' lp' lb' lt lm lo : loc) (new : list obj),
    handleInterceptorRequest input h = Ok (VRef lo) (h ++ new)
    ∧ (length h ≤ lf ∧ length h ≤ la' ∧ length h ≤ lp' ∧ length h ≤ lb'
       ∧ length h ≤ lt ∧ length h ≤ lm ∧ length h ≤ lo)
    ∧ own_props (h ++ new) (VRef lo)
      = <["interceptorOutputVersion" := VStr "1.0"]> (<["mcp" := VRef lm]> ∅)
    ∧ own_props (h ++ new) (VRef lm)
      = <["transformedGatewayRequest" := VRef lt]> ∅
    ∧ own_props (h ++ new) (VRef lt)
      = <["headers" := VRef lf]> (<["body" := VRef lb']> ∅)
    ∧ own_props (h ++ new) (VRef lf) = propagated h request_headers VUndefined
    ∧ own_props (h ++ new) (VRef lb')
      = <["params" := VRef lp']> (own_props h (VRef lb))
    ∧ own_props (h ++ new) (VRef lp')
      = <["arguments" := VRef la']> (own_props h params)
    ∧ own_props (h ++ new) (VRef la')
      = prefixed h request_headers
        ∪ own_props h (field h params "arguments").
Proof.
  intros hdrs params. subst params.
  pose proof (gateway_request_tree n h input gatewayRequest Hinput Hrequest)
    as Hgt.
  assert (json_tree n h hdrs = true) as Hh by by apply field_tree.
  assert (json_tree n h (VRef lb) = true) as Hb.
  { rewrite <- Hbody. by apply field_tree. }
  destruct (handler_steps n h hdrs lb Hh Hb)
    as (_ & _ & _ & Hb2 & Hp2 & Ep & Ef).
  set (h2 := headers_done h hdrs) in *.
  assert (h2 = h ++ [Obj Plain (propagated h hdrs VUndefined);
                     Obj Plain (prefixed h hdrs)]) as Eh2 by done.
  destruct (merged_own_props h2 (VRef lb) (VRef (prefixed_loc h)))
    as (Ea & Epm & Eb).
  set (body_objects := merged h2 (VRef lb) (VRef (prefixed_loc h))) in *.
  set (h3 := h2 ++ body_objects) in *.
  pose proof (length_merged h2 (VRef lb) (VRef (prefixed_loc h))) as Hlen.
  fold body_objects h3 in Hlen.
  assert (length h2 = S (S (length h))) as Hlen2.
  { rewrite Eh2, length_app. simpl. lia. }
  pose proof (merged_body_loc_ge h2 (VRef lb)) as Hge.
  pose proof (handler_objects_split h hdrs (VRef lb)) as Esplit.
  simpl in Esplit. fold h2 body_objects h3 in Esplit.
  assert (request_loc h hdrs (VRef lb) = length h3) as Elt.
  { unfold request_loc. fold h2 body_objects. subst h3.
    by rewrite length_app. }
  rewrite Elt in Esplit.
  destruct (envelope_lookup h3 (VRef (forwarded_loc h))
              (VRef (merged_body_loc h2 (VRef lb)))) as (Et & Em & Eo).
  simpl in Et, Em, Eo.
  exists (forwarded_loc h), (merged_arguments_loc h2 (VRef lb)),
    (merged_params_loc h2 (VRef lb)), (merged_body_loc h2 (VRef lb)),
    (length h3), (S (length h3)), (S (S (length h3))),
    (handler_objects h hdrs (VRef lb)).
  rewrite Esplit.
  split.
  { rewrite <- Esplit, handler_run.
    fold hdrs. do 2 f_equal. unfold output_loc, mcp_loc. by rewrite Elt. }
  unfold merged_body_loc, merged_params_loc in *.
  split; [unfold forwarded_loc; repeat split; lia|].
  split; [done|]. split; [done|]. split; [done|].
  assert (h3 = h ++ ([Obj Plain (propagated h hdrs VUndefined);
                      Obj Plain (prefixed h hdrs)] ++ body_objects)) as Eh3.
  { subst h3. rewrite Eh2. by rewrite <- (assoc_L (++)). }
  split.
  { rewrite own_props_old by (unfold forwarded_loc; lia).
    subst h3. rewrite own_props_old by (unfold forwarded_loc; lia). done. }
  split.
  { rewrite own_props_old by lia. rewrite Eb.
    subst h2. unfold headers_done.
    by rewrite (own_props_app n h _ (VRef lb) Hb). }
  split.
  { rewrite own_props_old by lia. rewrite Epm, params_of_own.
    subst h2. unfold headers_done.
    rewrite (field_app n) by done.
    rewrite (own_props_app n); [done|]. by apply field_tree. }
  rewrite own_props_old by lia. rewrite Ea, Ep, arguments_of_own.
  f_equal. subst h2. unfold headers_done.
  rewrite (field_app n h _ (VRef lb)) by done.
  rewrite (field_app n) by by apply field_tree.
  rewrite (own_props_app n); [done|]. by do 2 apply field_tree.
Qed.

(** What holds of the forwarded headers: the [headers] field of the
    transformed request is always there; it is a new empty mapping when the
    envelope has no header mapping and the incoming mapping without the name
    [__proto__] otherwise. *)
Lemma handler_forwarded_headers :
  ∃ (output : val) (new : list obj) (lf : loc),
    handleInterceptorRequest input h = Ok output (h ++ new)
    ∧ field (h ++ new) (transformed_request (h ++ new) output) "headers"
      = VRef lf
    ∧ length h ≤ lf
    ∧ (field h gatewayRequest "headers" = VUndefined →
       own_props (h ++ new) (VRef lf) = ∅)
    ∧ (∀ l H, field h gatewayRequest "headers" = VRef l →
              h !! l = Some (headers_obj H) →
              own_props (h ++ new) (VRef lf) = VStr <$> delete "__proto__" H).
Proof.
  destruct handler_output
    as (lf & la' & lp' & lb' & lt & lm & lo & new & E & Hfresh
        & Eo & Em & Et & Ef & _).
  exists (VRef lo), new, lf. split; [done|].
  assert (field (h ++ new) (VRef lo) "mcp" = VRef lm) as Fm.
  { unfold field. by rewrite Eo. }
  assert (field (h ++ new) (VRef lm) "transformedGatewayRequest" = VRef lt)
    as Ft.
  { unfold field. by rewrite Em. }
  assert (field (h ++ new) (VRef lt) "headers" = VRef lf) as Fh.
  { unfold field. by rewrite Et. }
  split; [unfold transformed_request; by rewrite Fm, Ft|].
  split; [lia|]. rewrite Ef. split.
  - by intros ->.
  - intros l H -> Hl. by apply propagated_incoming.
Qed.

End handler.

(** ** Sample runs *)

Lemma sample_run :
  handleInterceptorRequest (VRef 0) sample_store = Ok (VRef 16) sample_result.
Proof. vm_compute. reflexivity. Qed.

Lemma sample_reachable :
  reachable_refs (length sample_result) sample_result (VRef 16)
  = [16; 15; 14; 13; 12; 11; 8; 9].
Proof. vm_compute. reflexivity. Qed.

(** * The claims *)

(** ** Body reshaping *)

(** C1.  For every JSON body [B] and filtered header mapping [P] the
    body-reshaping step returns a new object with the fields of [B] and
    [params] set to a new object; that one has the fields of [B.params]
    and [arguments] set to a new object; that one has every entry of [P]
    and, for the keys [P] lacks, the entries of [B.params.arguments].
    Absent [params] or [arguments] contribute no field.  Body [{a:1}] with
    prefixed headers [{mcp_header_X:"v"}] yields
    [{a:1, params:{arguments:{mcp_header_X:"v"}}}], and body
    [{a:1, params:{b:2, arguments:{c:3}}}] yields
    [{a:1, params:{b:2, arguments:{c:3, mcp_header_X:"v"}}}]. *)
Theorem mergeBody_spec n (h : heap) (lb lp : loc) (P : gmap string string) :
  json_tree n h (VRef lb) = true →
  h !! lp = Some (headers_obj P) →
  let params := field h (VRef lb) "params" in
  let existingArguments := field h params "arguments" in
  ∃ (la' lp' lb' : loc) (new : list obj),
    mergeBody (VRef lb) (VRef lp) h = Ok (VRef lb') (h ++ new)
    ∧ length h ≤ la' ∧ length h ≤ lp' ∧ length h ≤ lb'
    ∧ own_props (h ++ new) (VRef lb')
      = <["params" := VRef lp']> (own_props h (VRef lb))
    ∧ own_props (h ++ new) (VRef lp')
      = <["arguments" := VRef la']> (own_props h params)
    ∧ (∀ k, own_props (h ++ new) (VRef la') !! k
            = match P !! k with
              | Some s => Some (VStr s)
              | None => own_props h existingArguments !! k
              end)
    ∧ (own_props h (VRef lb) !! "params" = None →
       own_props h params = ∅ ∧ own_props h existingArguments = ∅)
    ∧ (own_props h params !! "arguments" = None →
       own_props h existingArguments = ∅)
    ∧ run_merge sample_flat_body (VRef 0) (VRef 1)
      = Some (JObject Plain
                [("a", JNum 1);
                 ("params",
                  JObject Plain
                    [("arguments",
                      JObject Plain [("mcp_header_X", JStr "v")])])])
    ∧ run_merge sample_nested_body (VRef 0) (VRef 3)
      = Some (JObject Plain
                [("a", JNum 1);
                 ("params",
                  JObject Plain
                    [("arguments",
                      JObject Plain
                        [("c", JNum 3); ("mcp_header_X", JStr "v")]);
                     ("b", JNum 2)])]).
Proof.
  intros Hb Hp params existingArguments. subst existingArguments params.
  assert (json_tree (S n) h (VRef lb) = true) as Hb' by by apply json_tree_S.
  assert (json_tree (S n) h (VRef lp) = true) as Hp'.
  { apply (json_tree_mono 1); [lia|]. by apply (headers_obj_tree h lp P). }
  destruct (merged_own_props h (VRef lb) (VRef lp)) as (Ea & Ep & Eb).
  exists (merged_arguments_loc h (VRef lb)), (merged_params_loc h (VRef lb)),
    (merged_body_loc h (VRef lb)), (merged h (VRef lb) (VRef lp)).
  split; [by apply (mergeBody_run (S n))|].
  unfold merged_body_loc, merged_params_loc, merged_arguments_loc in *.
  split; [lia|]. split; [lia|]. split; [lia|].
  split; [done|].
  split; [by rewrite Ep, params_of_own|].
  split.
  { intros k. rewrite Ea, arguments_of_own, (own_props_headers h lp P Hp).
    rewrite lookup_union, lookup_fmap.
    destruct (P !! k) as [s|]; simpl.
    - by destruct (own_props h _ !! k).
    - by rewrite (left_id_L None _). }
  split.
  { intros Hnone. unfold field at 2. unfold field. by rewrite Hnone. }
  split.
  { intros Hnone. unfold field at 1. by rewrite Hnone. }
  split; vm_compute; reflexivity.
Qed.

Lemma mergeBody_spec_witness :
  json_tree 1 sample_flat_body (VRef 0) = true
  ∧ sample_flat_body !! 1 = Some (headers_obj sample_prefixed)
  ∧ ∃ (la' lp' lb' : loc) (new : list obj),
      mergeBody (VRef 0) (VRef 1) sample_flat_body
      = Ok (VRef lb') (sample_flat_body ++ new)
      ∧ own_props (sample_flat_body ++ new) (VRef lb')
        = <["params" := VRef lp']> {["a" := VNum 1]}
      ∧ own_props (sample_flat_body ++ new) (VRef lp')
        = <["arguments" := VRef la']> ∅.
Proof.
  split; [reflexivity|]. split; [reflexivity|].
  destruct (mergeBody_spec 1 sample_flat_body 0 1 sample_prefixed)
    as (la' & lp' & lb' & new & E & _ & _ & _ & Eb & Ep & _);
    [reflexivity|reflexivity|].
  exists la', lp', lb', new. split; [exact E|]. split; [exact Eb|exact Ep].
Defined.

(** ** Header filtering and prefixing *)

(** C2.  For every header mapping [H], [filterAndPrefixHeaders] returns a new
    object that has, for every key [k] of [H] whose lowercase form does not
    start with x-amzn, the entry [mcp_header_k] with the value [H k] (the
    casing of [k] kept), that has no other entry, and whose number of keys is
    that of [H] minus the number of x-amzn keys of [H]; for an absent header
    mapping it returns a new empty object. *)
Theorem filterAndPrefixHeaders_spec (h : heap) (l : loc) (H : gmap string string) :
  h !! l = Some (headers_obj H) →
  ∃ R : gmap string val,
    filterAndPrefixHeaders (VRef l) h = Ok (VRef (length h)) (h ++ [Obj Plain R])
    ∧ (∀ k, is_amzn k = false → R !! mcp_header k = VStr <$> H !! k)
    ∧ (∀ k' v, R !! k' = Some v →
         ∃ k s, k' = mcp_header k ∧ is_amzn k = false
                ∧ H !! k = Some s ∧ v = VStr s)
    ∧ size R = size H - size (filter (λ kv, is_amzn kv.1 = true) H)
    ∧ filterAndPrefixHeaders VUndefined h
      = Ok (VRef (length h)) (h ++ [Obj Plain ∅]).
Proof.
  intros Hl. exists (prefixed h (VRef l)).
  split; [|rewrite (prefixed_headers h l H Hl); repeat split].
  - apply (filterAndPrefixHeaders_run 1). by apply (headers_obj_tree h l H).
  - intros k Hk. rewrite lookup_kmap by apply _.
    destruct (H !! k) as [s|] eqn:E; simpl.
    + apply map_lookup_filter_Some. split; [|done].
      by rewrite lookup_fmap, E.
    + apply map_lookup_filter_None. left. by rewrite lookup_fmap, E.
  - intros k' v (k & -> & Hk)%lookup_kmap_Some; [|apply _].
    apply map_lookup_filter_Some in Hk as [Hk Hkeep]. simpl in Hkeep.
    apply lookup_fmap_Some in Hk as (s & <- & Hs). by exists k, s.
  - rewrite map_size_kmap_inj by apply _.
    rewrite map_filter_fmap, map_size_fmap. simpl.
    transitivity (size (filter (λ kv : string * string, is_amzn kv.1 = false) H)).
    { f_equal. }
    pose proof (amzn_split H). lia.
Qed.

Lemma filterAndPrefixHeaders_spec_witness :
  [headers_obj sample_headers] !! 0 = Some (headers_obj sample_headers)
  ∧ ∃ R : gmap string val,
      filterAndPrefixHeaders (VRef 0) [headers_obj sample_headers]
      = Ok (VRef 1) ([headers_obj sample_headers] ++ [Obj Plain R])
      ∧ (∀ k, is_amzn k = false →
           R !! mcp_header k = VStr <$> sample_headers !! k)
      ∧ (∀ k' v, R !! k' = Some v →
           ∃ k s, k' = mcp_header k ∧ is_amzn k = false
                  ∧ sample_headers !! k = Some s ∧ v = VStr s)
      ∧ size R = size sample_headers
                 - size (filter (λ kv, is_amzn kv.1 = true) sample_headers)
      ∧ filterAndPrefixHeaders VUndefined [headers_obj sample_headers]
        = Ok (VRef 1) ([headers_obj sample_headers] ++ [Obj Plain ∅]).
Proof.
  split; [reflexivity|].
  apply (filterAndPrefixHeaders_spec [headers_obj sample_headers] 0
           sample_headers).
  reflexivity.
Defined.

(** ** Header propagation *)

(** C3 fails on the code: an incoming header named [__proto__] is not
    forwarded.  The assignment of line 87 reaches the accessor inherited
    from [Object.prototype], which ignores a string, so the returned object
    has no such key although the incoming mapping has. *)
Theorem propagateHeaders_drops_proto :
  propagateHeaders (VRef 0) VUndefined
    [headers_obj (<["__proto__" := "x"]> (<["Authorization" := "t"]> ∅))]
  = Ok (VRef 1)
      [ headers_obj (<["__proto__" := "x"]> (<["Authorization" := "t"]> ∅));
        headers_obj (<["Authorization" := "t"]> ∅) ].
Proof. vm_compute. reflexivity. Qed.

(** ** Non-object params and arguments *)

(** C4 as stated fails on the code: a string at [params] is not replaced
    by the empty object; its characters become fields of the rebuilt
    [params], so the merged body differs from the one obtained without
    [params]. *)
Lemma nonobject_params_not_as_absent : ¬ nonobject_params_as_absent.
Proof.
  intros Hclaim.
  specialize (Hclaim
    [Obj Plain {["params" := VStr "ab"]}; headers_obj sample_prefixed]
    0 1 (Obj Plain {["params" := VStr "ab"]}) (VStr "ab")
    eq_refl eq_refl eq_refl).
  vm_compute in Hclaim. discriminate.
Qed.

(** C4, amended.  For every JSON body the body-reshaping step completes
    without failing.  The rebuilt [params] holds the own enumerable
    properties of the value at [params] and then [arguments]; the merged
    arguments hold those of the value at [params.arguments], overridden by
    the prefixed headers.  Where that value is [undefined], [null], a
    boolean, a number or the empty string it has no such property, and the
    result is the one for an absent field; a non-empty string or an array is
    not replaced by the empty object: its indexed elements are copied, as for
    [params: "ab"], which yields [params: {0:"a", 1:"b", arguments:{..}}],
    and for the array [params: ["x"]], which yields
    [params: {0:"x", arguments:{..}}]. *)
Theorem mergeBody_nonobject n (h : heap) (lb lp : loc) (P : gmap string string) :
  json_tree n h (VRef lb) = true →
  h !! lp = Some (headers_obj P) →
  let params := field h (VRef lb) "params" in
  let existingArguments := field h params "arguments" in
  ∃ (la' lp' lb' : loc) (new : list obj),
    mergeBody (VRef lb) (VRef lp) h = Ok (VRef lb') (h ++ new)
    ∧ own_props (h ++ new) (VRef lb') !! "params" = Some (VRef lp')
    ∧ own_props (h ++ new) (VRef lp')
      = <["arguments" := VRef la']> (own_props h params)
    ∧ own_props (h ++ new) (VRef la')
      = (VStr <$> P) ∪ own_props h existingArguments
    ∧ (scalar params = true →
       own_props (h ++ new) (VRef lp') = {["arguments" := VRef la']}
       ∧ own_props (h ++ new) (VRef la') = VStr <$> P)
    ∧ (scalar existingArguments = true →
       own_props (h ++ new) (VRef la') = VStr <$> P)
    ∧ run_merge [Obj Plain {["params" := VStr "ab"]}; headers_obj sample_prefixed]
        (VRef 0) (VRef 1)
      = Some (JObject Plain
                [("params",
                  JObject Plain
                    [("1", JStr "b");
                     ("arguments",
                      JObject Plain [("mcp_header_X", JStr "v")]);
                     ("0", JStr "a")])])
    ∧ run_merge [Obj Plain {["params" := VRef 2]}; headers_obj sample_prefixed;
                 Obj Array {["0" := VStr "x"]}]
        (VRef 0) (VRef 1)
      = Some (JObject Plain
                [("params",
                  JObject Plain
                    [("arguments",
                      JObject Plain [("mcp_header_X", JStr "v")]);
                     ("0", JStr "x")])]).
Proof.
  intros Hb Hp params existingArguments. subst existingArguments params.
  assert (json_tree (S n) h (VRef lb) = true) as Hb' by by apply json_tree_S.
  assert (json_tree (S n) h (VRef lp) = true) as Hp'.
  { apply (json_tree_mono 1); [lia|]. by apply (headers_obj_tree h lp P). }
  destruct (merged_own_props h (VRef lb) (VRef lp)) as (Ea & Ep & Eb).
  rewrite params_of_own in Ep.
  rewrite arguments_of_own, (own_props_headers h lp P Hp) in Ea.
  assert (∀ v, scalar v = true → own_props h v = ∅) as Hscalar.
  { intros [| | | |s|l]; try done. simpl.
    by intros ->%bool_decide_eq_true. }
  exists (merged_arguments_loc h (VRef lb)), (merged_params_loc h (VRef lb)),
    (merged_body_loc h (VRef lb)), (merged h (VRef lb) (VRef lp)).
  split; [by apply (mergeBody_run (S n))|].
  split; [by rewrite Eb, lookup_insert_eq|].
  split; [done|]. split; [done|].
  split.
  { intros Hs. rewrite Ep, Ea. split.
    - by rewrite (Hscalar _ Hs).
    - unfold field at 1. rewrite (Hscalar _ Hs), lookup_empty. simpl.
      by rewrite (right_id_L ∅ (∪)). }
  split.
  { intros Hs. by rewrite Ea, (Hscalar _ Hs), (right_id_L ∅ (∪)). }
  split; vm_compute; reflexivity.
Qed.

Lemma mergeBody_nonobject_witness :
  json_tree 1 [Obj Plain {["params" := VNum 5]}; headers_obj sample_prefixed]
    (VRef 0) = true
  ∧ [Obj Plain {["params" := VNum 5]}; headers_obj sample_prefixed] !! 1
    = Some (headers_obj sample_prefixed)
  ∧ ∃ (la' lp' lb' : loc) (new : list obj),
      let h' := [Obj Plain {["params" := VNum 5]}; headers_obj sample_prefixed]
                ++ new in
      mergeBody (VRef 0) (VRef 1)
        [Obj Plain {["params" := VNum 5]}; headers_obj sample_prefixed]
      = Ok (VRef lb') h'
      ∧ own_props h' (VRef lp') = {["arguments" := VRef la']}
      ∧ own_props h' (VRef la') = VStr <$> sample_prefixed.
Proof.
  split; [reflexivity|]. split; [reflexivity|].
  destruct (mergeBody_nonobject 1
              [Obj Plain {["params" := VNum 5]}; headers_obj sample_prefixed]
              0 1 sample_prefixed)
    as (la' & lp' & lb' & new & E & _ & _ & _ & Hs & _);
    [reflexivity|reflexivity|].
  exists la', lp', lb', new. split; [exact E|]. exact (Hs eq_refl).
Defined.

(** ** The output envelope *)

(** C5 fails on the code for the same reason as C3 and C10: a header named
    [__proto__] is not among the forwarded headers, which are therefore not
    what header propagation is specified to return (every incoming header).
    Everything else the claim says holds.  For every input envelope (a JSON
    value with the nested fields, an object body and an optional header
    mapping [H]) [handleInterceptorRequest] returns a new output envelope
    whose [interceptorOutputVersion] is "1.0", whose [mcp] has the single
    field [transformedGatewayRequest] (so no [transformedGatewayResponse]),
    and whose transformed request has exactly the fields [headers] and
    [body]: [headers] is the object [propagateHeaders] returns for the
    request's headers with no additional headers, and holds every entry of
    [H] but the one named [__proto__], so all of [H] exactly when [H] has
    no such entry; [body] is the object the body-reshaping step returns for
    the request body and the result of [filterAndPrefixHeaders]: the fields
    of the request body with [params] rebuilt, the fields of [params] with
    [arguments] rebuilt, and as arguments the entries [mcp_header_k] of the
    headers [k] of [H] that do not start with [x-amzn], over the arguments
    the body had. *)
Theorem handleInterceptorRequest_envelope n (h : heap) input gatewayRequest lb
    (H : gmap string string) :
  json_tree n h input = true →
  gateway_request h input = Some gatewayRequest →
  field h gatewayRequest "body" = VRef lb →
  header_mapping h (field h gatewayRequest "headers") H →
  let request_headers := field h gatewayRequest "headers" in
  let params := field h (VRef lb) "params" in
  let existingArguments := field h params "arguments" in
  ∃ (prefixedHeaders : val) (h1 h2 h3 new : list obj)
    (lo lm lt lf lb' lp' la' : loc),
    propagateHeaders request_headers VUndefined h = Ok (VRef lf) h1
    ∧ filterAndPrefixHeaders request_headers h1 = Ok prefixedHeaders h2
    ∧ mergeBody (VRef lb) prefixedHeaders h2 = Ok (VRef lb') h3
    ∧ handleInterceptorRequest input h = Ok (VRef lo) (h3 ++ new)
    ∧ length h ≤ lo
    ∧ own_props (h3 ++ new) (VRef lo)
      = <["interceptorOutputVersion" := VStr "1.0"]> (<["mcp" := VRef lm]> ∅)
    ∧ own_props (h3 ++ new) (VRef lm)
      = <["transformedGatewayRequest" := VRef lt]> ∅
    ∧ own_props (h3 ++ new) (VRef lm) !! "transformedGatewayResponse" = None
    ∧ own_props (h3 ++ new) (VRef lt)
      = <["headers" := VRef lf]> (<["body" := VRef lb']> ∅)
    ∧ own_props (h3 ++ new) (VRef lf) = VStr <$> delete "__proto__" H
    ∧ (own_props (h3 ++ new) (VRef lf) = VStr <$> H ↔ H !! "__proto__" = None)
    ∧ own_props (h3 ++ new) (VRef lb')
      = <["params" := VRef lp']> (own_props h (VRef lb))
    ∧ own_props (h3 ++ new) (VRef lp')
      = <["arguments" := VRef la']> (own_props h params)
    ∧ own_props (h3 ++ new) (VRef la')
      = kmap mcp_header (filter (λ kv, is_amzn kv.1 = false) (VStr <$> H))
        ∪ own_props h existingArguments.
Proof.
  intros Hi Hgr Hbody Hmap hdrs params existingArguments.
  pose proof (gateway_request_tree n h input gatewayRequest Hi Hgr) as Hgt.
  assert (json_tree n h hdrs = true) as Hh by by apply field_tree.
  assert (json_tree n h (VRef lb) = true) as Hb.
  { rewrite <- Hbody. by apply field_tree. }
  destruct (handler_steps n h hdrs lb Hh Hb) as (E1 & E2 & E3 & _).
  set (h2 := headers_done h hdrs) in *.
  set (h3 := h2 ++ merged h2 (VRef lb) (VRef (prefixed_loc h))) in *.
  pose proof (handler_objects_split h hdrs (VRef lb)) as Esplit.
  simpl in Esplit. fold h2 h3 in Esplit.
  assert (request_loc h hdrs (VRef lb) = length h3) as Elt.
  { unfold request_loc. fold h2. subst h3. by rewrite length_app. }
  rewrite Elt in Esplit.
  destruct (envelope_lookup h3 (VRef (forwarded_loc h))
              (VRef (merged_body_loc h2 (VRef lb)))) as (Et & Em & Eo).
  cbv zeta in Et, Em, Eo.
  set (new := envelope_objects (length h3) (VRef (forwarded_loc h))
                (VRef (merged_body_loc h2 (VRef lb)))) in *.
  assert (handleInterceptorRequest input h
          = Ok (VRef (S (S (length h3)))) (h3 ++ new)) as Erun.
  { rewrite <- Esplit, (handler_run n h input gatewayRequest lb) by done.
    fold hdrs. do 2 f_equal. unfold output_loc, mcp_loc. by rewrite Elt. }
  destruct (handler_output n h input gatewayRequest lb Hi Hgr Hbody)
    as (lf & la' & lp' & lb' & lt & lm & lo & new' & E & Hfresh
        & Eo' & Em' & Et' & Ef & Eb & Ep & Ea).
  cbv zeta in Ef, Eb, Ep, Ea. fold hdrs params existingArguments in Ef, Ep, Ea.
  rewrite Erun in E. injection E as Elo Estore. rewrite <- Estore in *.
  subst lo. clear Estore.
  assert (lm = S (length h3)) as ->.
  { assert (field (h3 ++ new) (VRef (S (S (length h3)))) "mcp" = VRef lm) as F
      by (unfold field; by rewrite Eo').
    unfold field in F. rewrite Eo in F. by injection F. }
  assert (lt = length h3) as ->.
  { assert (field (h3 ++ new) (VRef (S (length h3))) "transformedGatewayRequest"
            = VRef lt) as F by (unfold field; by rewrite Em').
    unfold field in F. rewrite Em in F. by injection F. }
  assert (lf = forwarded_loc h ∧ lb' = merged_body_loc h2 (VRef lb))
    as [-> ->].
  { assert (field (h3 ++ new) (VRef (length h3)) "headers" = VRef lf) as F1
      by (unfold field; by rewrite Et').
    assert (field (h3 ++ new) (VRef (length h3)) "body" = VRef lb') as F2
      by (unfold field; by rewrite Et').
    unfold field in F1, F2. rewrite Et in F1, F2.
    split; [by injection F1|by injection F2]. }
  assert (propagated h hdrs VUndefined = VStr <$> delete "__proto__" H
          ∧ prefixed h hdrs
            = kmap mcp_header
                (filter (λ kv, is_amzn kv.1 = false) (VStr <$> H)))
    as [Epr Epx].
  { unfold header_mapping in Hmap. fold hdrs in Hmap.
    destruct hdrs as [| | | | |l] eqn:Ehd; try done.
    - subst H. split; [done|].
      by rewrite fmap_empty, map_filter_empty, kmap_empty.
    - split; [by apply propagated_incoming|by apply prefixed_headers]. }
  eexists (VRef (prefixed_loc h)), _, h2, h3, new,
    (S (S (length h3))), (S (length h3)), (length h3), (forwarded_loc h),
    (merged_body_loc h2 (VRef lb)), lp', la'.
  split; [exact E1|]. split; [exact E2|]. split; [exact E3|].
  split; [exact Erun|]. split; [lia|].
  split; [exact Eo|]. split; [exact Em|].
  split; [by rewrite Em|]. split; [exact Et|].
  rewrite Ef, Epr. split; [done|].
  split.
  { split.
    - intros Heq. apply (f_equal (.!! "__proto__")) in Heq.
      rewrite !lookup_fmap, lookup_delete_eq in Heq.
      by destruct (H !! "__proto__").
    - intros Hnone. by rewrite delete_id. }
  split; [exact Eb|]. split; [exact Ep|].
  by rewrite Ea, Epx.
Qed.

Lemma handleInterceptorRequest_envelope_witness :
  (json_tree 4 proto_store (VRef 0) = true
   ∧ gateway_request proto_store (VRef 0) = Some (VRef 3)
   ∧ field proto_store (VRef 3) "body" = VRef 5
   ∧ header_mapping proto_store (field proto_store (VRef 3) "headers")
       (<["__proto__" := "x"]> {["Authorization" := "t"]}))
  ∧ ∃ (lo lf : loc) (h' : list obj),
      handleInterceptorRequest (VRef 0) proto_store = Ok (VRef lo) h'
      ∧ own_props h' (VRef lo) !! "interceptorOutputVersion"
        = Some (VStr "1.0")
      ∧ field h' (transformed_request h' (VRef lo)) "headers" = VRef lf
      ∧ own_props h' (VRef lf) = {["Authorization" := VStr "t"]}
      ∧ own_props h' (VRef lf)
        ≠ VStr <$> (<["__proto__" := "x"]> {["Authorization" := "t"]}).
Proof.
  split; [repeat split; reflexivity|].
  destruct (handleInterceptorRequest_envelope 4 proto_store (VRef 0) (VRef 3) 5
              (<["__proto__" := "x"]> {["Authorization" := "t"]}))
    as (ps & h1 & h2 & h3 & new & lo & lm & lt & lf & lb' & lp' & la'
        & _ & _ & _ & E & _ & Eo & Em & _ & Et & Ef & Eiff & _);
    [reflexivity|reflexivity|reflexivity|reflexivity|].
  exists lo, lf, (h3 ++ new). split; [exact E|].
  split; [by rewrite Eo|].
  assert (field (h3 ++ new) (VRef lo) "mcp" = VRef lm) as Fm
    by (unfold field; by rewrite Eo).
  assert (transformed_request (h3 ++ new) (VRef lo) = VRef lt) as Ft.
  { unfold transformed_request. rewrite Fm. unfold field. by rewrite Em. }
  split; [rewrite Ft; unfold field; by rewrite Et|].
  split.
  - rewrite Ef. vm_compute. reflexivity.
  - intros Heq. apply Eiff in Heq. discriminate Heq.
Defined.

(** ** Logging *)

(** C6 as stated fails on the code: with a body that contains itself,
    serializing the input for the first log line throws, and the handler
    throws with it. *)
Lemma logging_failure_not_swallowed : ¬ logging_failure_swallowed.
Proof.
  intros Hclaim.
  destruct (Hclaim cyclic_store (VRef 0) (VRef 3) 5 eq_refl eq_refl eq_refl)
    as (output & h' & E).
  vm_compute in E. discriminate.
Qed.

(** C6, amended.  For every input envelope that is a JSON value (no object
    contains itself, as for everything parsed from JSON text) no
    serialization for logging fails and the handler returns its output
    envelope.  The handler has no mechanism that swallows a logging
    failure: when serializing the input throws, the handler throws the same
    error to its caller, as it does with [TypeError] for a body that
    contains itself. *)
Theorem logging_failure_propagates (h : heap) (input : val) :
  (∀ n gatewayRequest lb,
     json_tree n h input = true →
     gateway_request h input = Some gatewayRequest →
     field h gatewayRequest "body" = VRef lb →
     JSON_stringify input h = Ok tt h
     ∧ ∃ output new, handleInterceptorRequest input h = Ok output (h ++ new))
  ∧ (∀ e, JSON_stringify input h = Throw e →
          handleInterceptorRequest input h = Throw e)
  ∧ handleInterceptorRequest (VRef 0) cyclic_store
    = Throw (TypeError "Converting circular structure to JSON").
Proof.
  split; [|split].
  - intros n gatewayRequest lb Hi Hgr Hbody.
    split; [by apply (JSON_stringify_tree n)|].
    eexists _, _. by apply (handler_run n h input gatewayRequest lb).
  - intros e He. unfold handleInterceptorRequest, bind at 1, console_log_json.
    by rewrite He.
  - vm_compute. reflexivity.
Qed.

Lemma logging_failure_propagates_witness :
  (json_tree 7 sample_store (VRef 0) = true
   ∧ gateway_request sample_store (VRef 0) = Some (VRef 3)
   ∧ field sample_store (VRef 3) "body" = VRef 5)
  ∧ (∃ output new,
       handleInterceptorRequest (VRef 0) sample_store
       = Ok output (sample_store ++ new))
  ∧ JSON_stringify (VRef 0) cyclic_store
    = Throw (TypeError "Converting circular structure to JSON")
  ∧ handleInterceptorRequest (VRef 0) cyclic_store
    = Throw (TypeError "Converting circular structure to JSON").
Proof.
  split; [repeat split; reflexivity|].
  split.
  - apply (proj1 (logging_failure_propagates sample_store (VRef 0))
             7 (VRef 3) 5); reflexivity.
  - split; [reflexivity|].
    apply (proj1 (proj2 (logging_failure_propagates cyclic_store (VRef 0)))).
    reflexivity.
Defined.

(** ** Re-application of the filter *)

(** C7.  [filterAndPrefixHeaders] is not idempotent: applied to its own
    result for the header mapping [{A: "1"}] it yields
    [{mcp_header_mcp_header_A: "1"}], which differs from the first result
    [{mcp_header_A: "1"}]: the prefix compounds. *)
Theorem filterAndPrefixHeaders_not_idempotent :
  ∃ (H : gmap string string) (v1 v2 : val) (h1 h2 : heap),
    filterAndPrefixHeaders (VRef 0) [headers_obj H] = Ok v1 h1
    ∧ filterAndPrefixHeaders v1 h1 = Ok v2 h2
    ∧ own_props h1 v1 = {["mcp_header_A" := VStr "1"]}
    ∧ own_props h2 v2 = {["mcp_header_mcp_header_A" := VStr "1"]}
    ∧ own_props h2 v2 ≠ own_props h1 v1.
Proof.
  exists {["A" := "1"]}. do 4 eexists.
  split; [vm_compute; reflexivity|].
  split; [vm_compute; reflexivity|].
  split; [vm_compute; reflexivity|].
  split; [vm_compute; reflexivity|].
  intros Heq. apply (f_equal (λ m, m !! "mcp_header_A")) in Heq.
  vm_compute in Heq. discriminate.
Qed.

(** ** The input after the call *)

(** C8 as stated fails on the code: the copies are shallow, so an object
    nested in the input's arguments (here the one at reference 8) is
    reachable from the output. *)
Lemma output_shares_input_objects : ¬ output_built_from_new_objects.
Proof.
  intros Hclaim.
  destruct (Hclaim 7 sample_store (VRef 0) (VRef 3) 5 eq_refl eq_refl eq_refl)
    as (output & h' & E & _ & Hnew).
  rewrite sample_run in E. injection E as <- <-.
  specialize (Hnew 8). rewrite sample_reachable in Hnew.
  assert (length sample_store ≤ 8) as Hle; [|simpl in Hle; lia].
  apply Hnew. rewrite !elem_of_cons. tauto.
Qed.

(** C8, amended.  For every input envelope the handler leaves every object
    of the input as it was: the store after the call is the store before it
    followed by new objects.  The output envelope, its [mcp], its
    transformed request, the forwarded header mapping, the merged body, its
    [params] and its [arguments] are seven of those new objects.  The values
    they hold are not cloned: the merged body, its [params] and its
    [arguments] hold the very values (references included) of the input's
    body, [params] and [arguments]. *)
Theorem handleInterceptorRequest_frame n (h : heap) input gatewayRequest lb :
  json_tree n h input = true →
  gateway_request h input = Some gatewayRequest →
  field h gatewayRequest "body" = VRef lb →
  let params := field h (VRef lb) "params" in
  let existingArguments := field h params "arguments" in
  ∃ (output : val) (new : list obj) (lf la' lp' lb' lt : loc),
    handleInterceptorRequest input h = Ok output (h ++ new)
    ∧ (∀ l o, h !! l = Some o → (h ++ new) !! l = Some o)
    ∧ field (h ++ new) output "mcp" ≠ VUndefined
    ∧ transformed_request (h ++ new) output = VRef lt
    ∧ field (h ++ new) (VRef lt) "headers" = VRef lf
    ∧ field (h ++ new) (VRef lt) "body" = VRef lb'
    ∧ field (h ++ new) (VRef lb') "params" = VRef lp'
    ∧ field (h ++ new) (VRef lp') "arguments" = VRef la'
    ∧ (∀ l, output = VRef l
            ∨ field (h ++ new) output "mcp" = VRef l
            ∨ l ∈ [lt; lf; lb'; lp'; la'] → length h ≤ l)
    ∧ (∀ k, k ≠ "params" →
            own_props (h ++ new) (VRef lb') !! k = own_props h (VRef lb) !! k)
    ∧ (∀ k, k ≠ "arguments" →
            own_props (h ++ new) (VRef lp') !! k = own_props h params !! k)
    ∧ (∀ k, startsWith k "mcp_header_" = false →
            own_props (h ++ new) (VRef la') !! k
            = own_props h existingArguments !! k).
Proof.
  intros Hi Hgr Hbody params existingArguments.
  subst existingArguments params.
  destruct (handler_output n h input gatewayRequest lb Hi Hgr Hbody)
    as (lf & la' & lp' & lb' & lt & lm & lo & new & E & Hfresh
        & Eo & Em & Et & Ef & Eb & Ep & Ea).
  destruct Hfresh as (? & ? & ? & ? & ? & ? & ?).
  exists (VRef lo), new, lf, la', lp', lb', lt.
  assert (field (h ++ new) (VRef lo) "mcp" = VRef lm) as Fm.
  { unfold field. by rewrite Eo. }
  split; [done|].
  split; [intros l o; apply lookup_app_l_Some|].
  split; [by rewrite Fm|].
  split; [unfold transformed_request, field at 1; by rewrite Fm, Em|].
  split; [unfold field; by rewrite Et|].
  split; [unfold field; by rewrite Et|].
  split; [unfold field; by rewrite Eb, lookup_insert_eq|].
  split; [unfold field; by rewrite Ep, lookup_insert_eq|].
  split.
  { intros l [[= <-]|[Hl|Hl]]; [lia| |].
    - rewrite Fm in Hl. injection Hl as <-. lia.
    - rewrite !elem_of_cons in Hl.
      destruct Hl as [->|[->|[->|[->|[->|Hl]]]]]; try lia.
      by apply elem_of_nil in Hl. }
  split; [intros k Hk; by rewrite Eb, lookup_insert_ne|].
  split; [intros k Hk; by rewrite Ep, lookup_insert_ne|].
  intros k Hk. rewrite Ea, lookup_union.
  destruct (prefixed h (field h gatewayRequest "headers") !! k) as [c|] eqn:Hc.
  - assert (startsWith k "mcp_header_" = true) as Hk'
      by by apply (prefixed_keys h (field h gatewayRequest "headers")); eauto.
    by rewrite Hk in Hk'.
  - by rewrite (left_id_L None _).
Qed.

Lemma handleInterceptorRequest_frame_witness :
  (json_tree 7 sample_store (VRef 0) = true
   ∧ gateway_request sample_store (VRef 0) = Some (VRef 3)
   ∧ field sample_store (VRef 3) "body" = VRef 5)
  ∧ ∃ (output : val) (new : list obj),
      handleInterceptorRequest (VRef 0) sample_store
      = Ok output (sample_store ++ new)
      ∧ ∀ l o, sample_store !! l = Some o →
               (sample_store ++ new) !! l = Some o.
Proof.
  split; [repeat split; reflexivity|].
  destruct (handleInterceptorRequest_frame 7 sample_store (VRef 0) (VRef 3) 5)
    as (output & new & lf & la' & lp' & lb' & lt & E & Hold & _);
    [reflexivity|reflexivity|reflexivity|].
  exists output, new. split; [exact E|exact Hold].
Defined.

(** ** Arguments that were there *)

(** C9.  For every input envelope, every key of the input's
    [params.arguments] that does not start with [mcp_header_] is in the
    output's [params.arguments] with the value it had: every key produced by
    [filterAndPrefixHeaders] starts with [mcp_header_]. *)
Theorem existing_arguments_kept n (h : heap) input gatewayRequest lb k v :
  json_tree n h input = true →
  gateway_request h input = Some gatewayRequest →
  field h gatewayRequest "body" = VRef lb →
  own_props h (field h (field h (VRef lb) "params") "arguments") !! k = Some v →
  startsWith k "mcp_header_" = false →
  ∃ (output : val) (h' : list obj),
    handleInterceptorRequest input h = Ok output h'
    ∧ own_props h'
        (field h' (field h' (field h' (transformed_request h' output) "body")
                     "params") "arguments") !! k = Some v
    ∧ ∀ k', is_Some (prefixed h (field h gatewayRequest "headers") !! k') →
            startsWith k' "mcp_header_" = true.
Proof.
  intros Hi Hgr Hbody Hk Hpre.
  destruct (handler_output n h input gatewayRequest lb Hi Hgr Hbody)
    as (lf & la' & lp' & lb' & lt & lm & lo & new & E & _
        & Eo & Em & Et & _ & Eb & Ep & Ea).
  exists (VRef lo), (h ++ new). split; [done|]. split.
  - unfold transformed_request.
    rewrite (field_own _ _ "mcp" (VRef lm)) by by rewrite Eo.
    rewrite (field_own _ _ "transformedGatewayRequest" (VRef lt))
      by by rewrite Em.
    rewrite (field_own _ _ "body" (VRef lb')) by by rewrite Et.
    rewrite (field_own _ _ "params" (VRef lp'))
      by by rewrite Eb, lookup_insert_eq.
    rewrite (field_own _ _ "arguments" (VRef la'))
      by by rewrite Ep, lookup_insert_eq.
    rewrite Ea, lookup_union.
    destruct (prefixed h (field h gatewayRequest "headers") !! k) eqn:Hc.
    + assert (startsWith k "mcp_header_" = true) as Hk'
        by by apply (prefixed_keys h (field h gatewayRequest "headers")); eauto.
      by rewrite Hpre in Hk'.
    + by rewrite (left_id_L None _).
  - intros k'. apply prefixed_keys.
Qed.

Lemma existing_arguments_kept_witness :
  (json_tree 7 sample_store (VRef 0) = true
   ∧ gateway_request sample_store (VRef 0) = Some (VRef 3)
   ∧ field sample_store (VRef 3) "body" = VRef 5
   ∧ own_props sample_store
       (field sample_store (field sample_store (VRef 5) "params") "arguments")
       !! "q" = Some (VStr "x")
   ∧ startsWith "q" "mcp_header_" = false)
  ∧ ∃ (output : val) (h' : list obj),
      handleInterceptorRequest (VRef 0) sample_store = Ok output h'
      ∧ own_props h'
          (field h' (field h' (field h' (transformed_request h' output) "body")
                       "params") "arguments") !! "q" = Some (VStr "x").
Proof.
  split; [repeat split; reflexivity|].
  destruct (existing_arguments_kept 7 sample_store (VRef 0) (VRef 3) 5
              "q" (VStr "x"))
    as (output & h' & E & Hq & _);
    [reflexivity|reflexivity|reflexivity|reflexivity|reflexivity|].
  exists output, h'. split; [exact E|exact Hq].
Defined.

(** ** The forwarded headers of the envelope *)

(** C10 fails on the code for the same reason as C3: for an envelope whose
    header mapping is [{__proto__: "x", Authorization: "t"}] the [headers]
    of the transformed request are [{Authorization: "t"}], not the incoming
    mapping. *)
Theorem handler_drops_proto_header :
  ∃ (output : val) (h' : list obj),
    handleInterceptorRequest (VRef 0) proto_store = Ok output h'
    ∧ own_props proto_store (field proto_store (VRef 3) "headers")
      = VStr <$> (<["__proto__" := "x"]> {["Authorization" := "t"]})
    ∧ own_props h' (field h' (transformed_request h' output) "headers")
      = VStr <$> {["Authorization" := "t"]}.
Proof.
  eexists _, _. split; [vm_compute; reflexivity|].
  split; vm_compute; reflexivity.
Qed.

(** * Further properties of the code *)

(** ** The reserved prefix *)

Lemma lower_ascii_idemp c : lower_ascii (lower_ascii c) = lower_ascii c.
Proof. by destruct c as [[] [] [] [] [] [] [] []]. Qed.

Lemma toLowerCase_idemp s : toLowerCase (toLowerCase s) = toLowerCase s.
Proof.
  induction s as [|c s IH]; [done|]. simpl. by rewrite lower_ascii_idemp, IH.
Qed.

Lemma toLowerCase_app a b :
  toLowerCase (a +:+ b) = toLowerCase a +:+ toLowerCase b.
Proof. induction a as [|c a IH]; [done|]. simpl. by rewrite IH. Qed.

Lemma toLowerCase_split k a b :
  toLowerCase k = a +:+ b →
  ∃ p s, k = p +:+ s ∧ toLowerCase p = a ∧ toLowerCase s = b.
Proof.
  revert k. induction a as [|c a IH]; intros k Hk.
  - by exists "", k.
  - destruct k as [|c' k]; [done|]. simpl in Hk. injection Hk as Hc Hk.
    destruct (IH k Hk) as (p & s & -> & Hp & Hs).
    exists (String c' p), s. simpl. by rewrite Hc, Hp.
Qed.

Lemma startsWith_app s p : startsWith s p = true ↔ ∃ r, s = p +:+ r.
Proof.
  unfold startsWith. revert s. induction p as [|c p IH]; intros s.
  - split; [by exists s|]. by destruct s.
  - destruct s as [|c' s]; simpl.
    + split; [done|]. by intros [r ?].
    + destruct (ascii_dec c c') as [->|Hne].
      * rewrite IH. split; intros [r Hr]; exists r.
        -- simpl. by rewrite Hr.
        -- simpl in Hr. by injection Hr.
      * split; [done|]. intros [r Hr]. simpl in Hr. by injection Hr.
Qed.

(** X1.  The test of line 119 is insensitive to case and looks at nothing
    but the first six characters: a key is dropped exactly when it is some
    casing of x-amzn followed by anything, and lowering the case of a key
    does not change the verdict. *)
Theorem is_amzn_any_case (key : string) :
  (is_amzn key = true ↔
   ∃ p s, key = p +:+ s ∧ toLowerCase p = "x-amzn")
  ∧ is_amzn (toLowerCase key) = is_amzn key.
Proof.
  split.
  - unfold is_amzn. rewrite startsWith_app. split.
    + intros [r Hr]. apply toLowerCase_split in Hr as (p & s & -> & Hp & _).
      by exists p, s.
    + intros (p & s & -> & Hp). exists (toLowerCase s).
      by rewrite toLowerCase_app, Hp.
  - unfold is_amzn. by rewrite toLowerCase_idemp.
Qed.

(** ** The header functions on their own *)

(** X2.  On two header mappings [propagateHeaders] returns a new object in
    which every name other than [__proto__] has the value the additional
    mapping gives it, or else the one the incoming mapping gives it, and
    which has no own [__proto__]; when neither mapping has that name the
    result is exactly the additional mapping laid over the incoming one.
    With the additional mapping absent the incoming one is copied. *)
Theorem propagateHeaders_override (h : heap) (l1 l2 : loc)
    (H1 H2 : gmap string string) :
  h !! l1 = Some (headers_obj H1) →
  h !! l2 = Some (headers_obj H2) →
  ∃ R R1 : gmap string val,
    propagateHeaders (VRef l1) (VRef l2) h
    = Ok (VRef (length h)) (h ++ [Obj Plain R])
    ∧ (∀ k, k ≠ "__proto__" →
            R !! k = VStr <$> (match H2 !! k with
                               | Some v => Some v
                               | None => H1 !! k
                               end))
    ∧ R !! "__proto__" = None
    ∧ (H1 !! "__proto__" = None → H2 !! "__proto__" = None →
       R = VStr <$> (H2 ∪ H1))
    ∧ propagateHeaders (VRef l1) VUndefined h
      = Ok (VRef (length h)) (h ++ [Obj Plain R1])
    ∧ (∀ k, k ≠ "__proto__" → R1 !! k = VStr <$> H1 !! k).
Proof.
  intros E1 E2.
  exists (propagated h (VRef l1) (VRef l2)), (propagated h (VRef l1) VUndefined).
  assert (json_tree 1 h (VRef l1) = true) as T1
    by by apply (headers_obj_tree h l1 H1).
  assert (json_tree 1 h (VRef l2) = true) as T2
    by by apply (headers_obj_tree h l2 H2).
  rewrite (propagated_headers h l1 l2 H1 H2 E1 E2).
  rewrite (propagated_incoming h l1 H1 E1).
  split; [by rewrite (propagateHeaders_run 1), (propagated_headers h l1 l2 H1 H2)|].
  split.
  { intros k Hk. rewrite lookup_fmap, lookup_union, !lookup_delete_ne by done.
    by destruct (H2 !! k), (H1 !! k). }
  split.
  { by rewrite lookup_fmap, lookup_union, !lookup_delete_eq. }
  split.
  { intros N1 N2. by rewrite !delete_id. }
  split.
  { by rewrite (propagateHeaders_run 1), (propagated_incoming h l1 H1). }
  intros k Hk. by rewrite lookup_fmap, lookup_delete_ne.
Qed.

Lemma propagateHeaders_override_witness :
  (override_store !! 0 = Some (headers_obj sample_headers)
   ∧ override_store !! 1
     = Some (headers_obj {["Authorization" := "Bearer other"]}))
  ∧ ∃ R : gmap string val,
      propagateHeaders (VRef 0) (VRef 1) override_store
      = Ok (VRef 2) (override_store ++ [Obj Plain R])
      ∧ R !! "Authorization" = Some (VStr "Bearer other")
      ∧ R !! "x-amzn-trace" = Some (VStr "1").
Proof.
  split; [split; reflexivity|].
  destruct (propagateHeaders_override override_store 0 1 sample_headers
              {["Authorization" := "Bearer other"]})
    as (R & R1 & E & HR & _); [reflexivity|reflexivity|].
  exists R. split; [exact E|].
  split; [by rewrite (HR "Authorization")|by rewrite (HR "x-amzn-trace")].
Defined.

(** X3.  On any JSON values, header mappings or not, the two header
    functions return, never throw, and write to nothing that was there: the
    store after the call is the store before it followed by the one object
    they return, which is new even when there is nothing to copy.  Every
    value of the object [propagateHeaders] returns is a value of one of its
    arguments, and every name of the object [filterAndPrefixHeaders] returns
    starts with the marker.  The arguments are such that no assignment to
    [__proto__] follows a replacement of the prototype of the new object:
    the incoming value has no own [__proto__] holding [null] or an object,
    or the additional value has no own [__proto__] at all (as when it is
    omitted); the store does not record prototypes. *)
Theorem header_functions_frame n (h : heap) (incomingHeaders additionalHeaders : val) :
  json_tree n h incomingHeaders = true →
  json_tree n h additionalHeaders = true →
  keeps_prototype h incomingHeaders = true
  ∨ own_props h additionalHeaders !! "__proto__" = None →
  ∃ R F : gmap string val,
    propagateHeaders incomingHeaders additionalHeaders h
    = Ok (VRef (length h)) (h ++ [Obj Plain R])
    ∧ filterAndPrefixHeaders incomingHeaders h
      = Ok (VRef (length h)) (h ++ [Obj Plain F])
    ∧ (∀ k c, R !! k = Some c →
         ∃ k0, own_props h incomingHeaders !! k0 = Some c
               ∨ own_props h additionalHeaders !! k0 = Some c)
    ∧ R !! "__proto__" = None
    ∧ (∀ k, is_Some (F !! k) → startsWith k "mcp_header_" = true).
Proof.
  intros Hi Ha _.
  exists (propagated h incomingHeaders additionalHeaders),
    (prefixed h incomingHeaders).
  split; [by apply (propagateHeaders_run n)|].
  split; [by apply (filterAndPrefixHeaders_run n)|].
  split; [|split; [|intros k; apply prefixed_keys]].
  - apply loop_over_values.
    + intros k c Hk. exists k. by right.
    + apply loop_over_values; [|done]. intros k c Hk. exists k. by left.
  - assert (∀ v (p : gmap string val), p !! "__proto__" = None →
            loop_over no_skip id h v p !! "__proto__" = None) as Hkeep.
    { intros v p Hp. unfold loop_over. destruct (truthy v); [|done].
      rewrite assigned_headers by done.
      apply lookup_union_None. split; [apply lookup_delete_eq|done]. }
    unfold propagated. by apply Hkeep, Hkeep.
Qed.

Lemma header_functions_frame_witness :
  (json_tree 1 override_store (VRef 0) = true
   ∧ json_tree 1 override_store (VStr "ab") = true
   ∧ (keeps_prototype override_store (VRef 0) = true
      ∨ own_props override_store (VStr "ab") !! "__proto__" = None))
  ∧ ∃ R F : gmap string val,
      propagateHeaders (VRef 0) (VStr "ab") override_store
      = Ok (VRef 2) (override_store ++ [Obj Plain R])
      ∧ filterAndPrefixHeaders (VRef 0) override_store
        = Ok (VRef 2) (override_store ++ [Obj Plain F]).
Proof.
  split; [split; [|split]; [reflexivity|reflexivity|left; reflexivity]|].
  destruct (header_functions_frame 1 override_store (VRef 0) (VStr "ab"))
    as (R & F & E1 & E2 & _); [reflexivity|reflexivity|left; reflexivity|].
  exists R, F. split; [exact E1|exact E2].
Defined.

Lemma is_amzn_mcp_header key : is_amzn (mcp_header key) = false.
Proof. reflexivity. Qed.

Lemma length_mcp_header key :
  String.length (mcp_header key) = 11 + String.length key.
Proof. reflexivity. Qed.

Lemma longest_key (m : gmap string val) :
  m ≠ ∅ →
  ∃ k x, m !! k = Some x
         ∧ ∀ k' x', m !! k' = Some x' → String.length k' ≤ String.length k.
Proof.
  induction m as [|i x m Hi IH] using map_ind; [done|]. intros _.
  destruct (decide (m = ∅)) as [->|Hne].
  - exists i, x. split; [apply lookup_insert_eq|].
    intros k' x'. rewrite lookup_insert_Some, lookup_empty.
    by intros [[<- _]|[_ ?]].
  - destruct (IH Hne) as (k & y & Hk & Hmax).
    destruct (decide (String.length i ≤ String.length k)) as [Hle|Hgt].
    + exists k, y. split.
      * rewrite lookup_insert_ne; [done|]. intros ->. congruence.
      * intros k' x'. rewrite lookup_insert_Some.
        intros [[<- _]|[_ Hk']]; [done|]. by apply (Hmax k' x').
    + exists i, x. split; [apply lookup_insert_eq|].
      intros k' x'. rewrite lookup_insert_Some.
      intros [[<- _]|[_ Hk']]; [done|]. specialize (Hmax k' x' Hk'). lia.
Qed.

Lemma kmap_mcp_header_ne (m : gmap string val) :
  m ≠ ∅ → kmap mcp_header m ≠ m.
Proof.
  intros Hne Heq. destruct (longest_key m Hne) as (k & x & Hk & Hmax).
  assert (m !! mcp_header k = Some x) as Hk'.
  { rewrite <- Heq. by rewrite lookup_kmap by apply _. }
  specialize (Hmax _ _ Hk'). rewrite length_mcp_header in Hmax. lia.
Qed.

(** What [filterAndPrefixHeaders] builds from any object. *)
Lemma prefixed_props (h : heap) l o :
  h !! l = Some o →
  prefixed h (VRef l)
  = kmap mcp_header (filter (λ kv, is_amzn kv.1 = false) (props o)).
Proof.
  intros Hl. unfold prefixed, loop_over. simpl. rewrite Hl. simpl.
  rewrite store_map_to_list by first [done | apply _].
  rewrite (right_id_L ∅ (∪)). f_equal.
  apply map_filter_ext. intros k v _. unfold kept. simpl.
  split; [by intros [? _]|]. intros ?. split; [done|].
  apply mcp_header_not_proto.
Qed.

(** X4.  Applying [filterAndPrefixHeaders] to its own result drops nothing
    more and prefixes every surviving key once more: for every header
    mapping the second result has the entry [mcp_header_mcp_header_k] for
    each entry [mcp_header_k] of the first, and nothing else.  So the two
    results have the same number of entries and differ whenever the first
    is not empty. *)
Theorem filterAndPrefixHeaders_twice (h : heap) (l : loc) (H : gmap string string) :
  h !! l = Some (headers_obj H) →
  ∃ R1 R2 : gmap string val,
    filterAndPrefixHeaders (VRef l) h
    = Ok (VRef (length h)) (h ++ [Obj Plain R1])
    ∧ filterAndPrefixHeaders (VRef (length h)) (h ++ [Obj Plain R1])
      = Ok (VRef (S (length h))) (h ++ [Obj Plain R1; Obj Plain R2])
    ∧ (∀ k', R2 !! mcp_header k' = R1 !! k')
    ∧ (∀ k'' v, R2 !! k'' = Some v → ∃ k', k'' = mcp_header k')
    ∧ (∀ k, is_amzn k = false →
            R2 !! mcp_header (mcp_header k) = VStr <$> H !! k)
    ∧ size R2 = size R1
    ∧ (R1 ≠ ∅ → R2 ≠ R1).
Proof.
  intros Hl.
  set (R1 := prefixed h (VRef l)).
  set (h1 := h ++ [Obj Plain R1]).
  assert (h1 !! length h = Some (Obj Plain R1)) as Hl1 by apply lookup_new.
  assert (R1 = kmap mcp_header
                 (filter (λ kv, is_amzn kv.1 = false) (VStr <$> H))) as ER1
    by apply (prefixed_headers h l H Hl).
  assert (prefixed h1 (VRef (length h)) = kmap mcp_header R1) as ER2.
  { rewrite (prefixed_props h1 (length h) (Obj Plain R1) Hl1). simpl. f_equal.
    apply map_filter_id. intros k v Hk. simpl.
    rewrite ER1 in Hk. apply lookup_kmap_Some in Hk as (k0 & -> & _); [|apply _].
    apply is_amzn_mcp_header. }
  exists R1, (kmap mcp_header R1).
  split; [apply (filterAndPrefixHeaders_run 1); by apply (headers_obj_tree h l H)|].
  split.
  { rewrite (filterAndPrefixHeaders_run 1).
    - fold h1. rewrite ER2. subst h1. rewrite length_app. simpl.
      rewrite <- (assoc_L (++)). do 2 f_equal. lia.
    - apply json_tree_ref. exists (Obj Plain R1). split; [done|].
      intros k c. simpl. rewrite ER1.
      intros (k0 & -> & Hk)%lookup_kmap_Some; [|apply _].
      apply map_lookup_filter_Some in Hk as [Hk _].
      by apply lookup_fmap_Some in Hk as (s & <- & _). }
  split; [intros k'; by rewrite lookup_kmap by apply _|].
  split.
  { intros k'' v (k' & -> & _)%lookup_kmap_Some; [|apply _]. by exists k'. }
  split.
  { intros k Hk. rewrite lookup_kmap by apply _. rewrite ER1.
    rewrite lookup_kmap by apply _.
    destruct (H !! k) as [s|] eqn:E; simpl.
    - apply map_lookup_filter_Some. split; [|done]. by rewrite lookup_fmap, E.
    - apply map_lookup_filter_None. left. by rewrite lookup_fmap, E. }
  split; [by apply map_size_kmap_inj, _|].
  apply kmap_mcp_header_ne.
Qed.

Lemma filterAndPrefixHeaders_twice_witness :
  [headers_obj sample_headers] !! 0 = Some (headers_obj sample_headers)
  ∧ ∃ R1 R2 : gmap string val,
      filterAndPrefixHeaders (VRef 0) [headers_obj sample_headers]
      = Ok (VRef 1) ([headers_obj sample_headers] ++ [Obj Plain R1])
      ∧ filterAndPrefixHeaders (VRef 1)
          ([headers_obj sample_headers] ++ [Obj Plain R1])
        = Ok (VRef 2) ([headers_obj sample_headers] ++ [Obj Plain R1; Obj Plain R2])
      ∧ size R2 = size R1.
Proof.
  split; [reflexivity|].
  destruct (filterAndPrefixHeaders_twice [headers_obj sample_headers] 0
              sample_headers)
    as (R1 & R2 & E1 & E2 & _ & _ & _ & Hs & _); [reflexivity|].
  exists R1, R2. split; [exact E1|]. split; [exact E2|exact Hs].
Defined.

(** ** The response constructor *)

(** X5.  [createTransformedGatewayResponse] returns a new object with
    exactly the two fields [statusCode] and [body], never throws, and writes
    to no object of the store.  The body is stored as it is given, not
    copied: an object body is the caller's object.  When the body is a JSON
    value, so is the response, and serializing it does not throw. *)
Theorem createTransformedGatewayResponse_spec n (h : heap) (statusCode body : val) :
  (∀ l, statusCode ≠ VRef l) →
  json_tree n h body = true →
  ∃ o : obj,
    createTransformedGatewayResponse statusCode body h
    = Ok (VRef (length h)) (h ++ [o])
    ∧ own_props (h ++ [o]) (VRef (length h))
      = <["statusCode" := statusCode]> (<["body" := body]> ∅)
    ∧ field (h ++ [o]) (VRef (length h)) "body" = body
    ∧ own_props (h ++ [o]) body = own_props h body
    ∧ json_tree (S n) (h ++ [o]) (VRef (length h)) = true
    ∧ JSON_stringify (VRef (length h)) (h ++ [o]) = Ok tt (h ++ [o]).
Proof.
  intros Hs Hb.
  exists (Obj Plain (<["statusCode" := statusCode]> (<["body" := body]> ∅))).
  assert (json_tree (S n)
            (h ++ [Obj Plain (<["statusCode" := statusCode]>
                                (<["body" := body]> ∅))])
            (VRef (length h)) = true) as Ht.
  { apply json_tree_new. intros k c.
    intros [[_ <-]|[_ [[_ <-]|[_ Hc]]%lookup_insert_Some]]%lookup_insert_Some;
      [by apply json_tree_prim|done|done]. }
  split; [done|].
  split; [simpl; by rewrite lookup_new|].
  split; [unfold field; simpl; by rewrite lookup_new|].
  split; [by apply (own_props_app n)|].
  split; [done|]. by apply (JSON_stringify_tree (S n)).
Qed.

Lemma createTransformedGatewayResponse_spec_witness :
  ((∀ l, VNum 200 ≠ VRef l) ∧ json_tree 4 sample_store (VRef 5) = true)
  ∧ ∃ o : obj,
      createTransformedGatewayResponse (VNum 200) (VRef 5) sample_store
      = Ok (VRef 9) (sample_store ++ [o])
      ∧ field (sample_store ++ [o]) (VRef 9) "body" = VRef 5.
Proof.
  split; [split; [done|reflexivity]|].
  destruct (createTransformedGatewayResponse_spec 4 sample_store (VNum 200)
              (VRef 5))
    as (o & E & _ & F & _); [done|reflexivity|].
  exists o. split; [exact E|exact F].
Defined.

(** ** The handler, end to end *)

(** The output envelope of a JSON input is a JSON value of the final
    store. *)
Lemma handler_output_tree n (h : heap) input gatewayRequest lb :
  json_tree n h input = true →
  gateway_request h input = Some gatewayRequest →
  field h gatewayRequest "body" = VRef lb →
  json_tree (7 + n)
    (h ++ handler_objects h (field h gatewayRequest "headers") (VRef lb))
    (VRef (output_loc h (field h gatewayRequest "headers") (VRef lb))) = true.
Proof.
  intros Hinput Hrequest Hbody.
  pose proof (gateway_request_tree n h input gatewayRequest Hinput Hrequest)
    as Hgt.
  set (hdrs := field h gatewayRequest "headers").
  assert (json_tree n h hdrs = true) as Hh by by apply field_tree.
  assert (json_tree n h (VRef lb) = true) as Hb.
  { rewrite <- Hbody. by apply field_tree. }
  destruct (handler_steps n h hdrs lb Hh Hb) as (_ & _ & _ & Hb2 & Hp2 & _ & _).
  pose proof (handler_objects_split h hdrs (VRef lb)) as Esplit.
  simpl in Esplit. rewrite Esplit. clear Esplit.
  set (h2 := headers_done h hdrs) in *.
  pose proof (merged_tree (S n) h2 (VRef lb) (VRef (prefixed_loc h)) Hb2 Hp2)
    as Hm.
  pose proof (length_merged h2 (VRef lb) (VRef (prefixed_loc h))) as Hlen.
  set (h3 := h2 ++ merged h2 (VRef lb) (VRef (prefixed_loc h))) in *.
  unfold output_loc, mcp_loc.
  assert (request_loc h hdrs (VRef lb) = length h3) as ->.
  { unfold request_loc. fold h2. subst h3. by rewrite length_app. }
  assert (json_tree (4 + n) h3 (VRef (forwarded_loc h)) = true) as Hf3.
  { apply (json_tree_mono (S n)); [lia|]. subst h3 h2. unfold headers_done.
    replace [Obj Plain (propagated h hdrs VUndefined); Obj Plain (prefixed h hdrs)]
      with ([Obj Plain (propagated h hdrs VUndefined)]
            ++ [Obj Plain (prefixed h hdrs)]) by done.
    rewrite (assoc_L (++)). do 2 apply json_tree_app.
    apply json_tree_new. intros k c Hk.
    apply (propagated_tree n h hdrs VUndefined k); [done| |done].
    by apply json_tree_prim. }
  unfold envelope_objects.
  set (t := Obj Plain (<["headers" := VRef (forwarded_loc h)]>
                         (<["body" := VRef (merged_body_loc h2 (VRef lb))]> ∅))).
  set (m := Obj Plain (<["transformedGatewayRequest" := VRef (length h3)]> ∅)).
  replace [t; m; Obj Plain (<["interceptorOutputVersion" := VStr "1.0"]>
                              (<["mcp" := VRef (S (length h3))]> ∅))]
    with ([t] ++ [m] ++ [Obj Plain (<["interceptorOutputVersion" := VStr "1.0"]>
                              (<["mcp" := VRef (S (length h3))]> ∅))]) by done.
  rewrite !(assoc_L (++)).
  assert (json_tree (5 + n) (h3 ++ [t]) (VRef (length h3)) = true) as Ht.
  { apply json_tree_new. intros k c.
    intros [[_ <-]|[_ [[_ <-]|[_ Hc]]%lookup_insert_Some]]%lookup_insert_Some;
      done. }
  assert (length (h3 ++ [t]) = S (length h3)) as El by (rewrite length_app; simpl; lia).
  assert (json_tree (6 + n) ((h3 ++ [t]) ++ [m]) (VRef (S (length h3))) = true)
    as Hmcp.
  { rewrite <- El. apply json_tree_new. intros k c.
    by intros [[_ <-]|[_ Hc]]%lookup_insert_Some. }
  assert (length ((h3 ++ [t]) ++ [m]) = S (S (length h3))) as El'
    by (rewrite length_app, El; simpl; lia).
  rewrite <- El'. apply json_tree_new. intros k c.
  intros [[_ <-]|[_ [[_ <-]|[_ Hc]]%lookup_insert_Some]]%lookup_insert_Some;
    done.
Qed.

(** What the caller reads from the output of the handler, in terms of the
    input store. *)
Lemma handler_reads n (h : heap) input gatewayRequest lb :
  json_tree n h input = true →
  gateway_request h input = Some gatewayRequest →
  field h gatewayRequest "body" = VRef lb →
  ∃ (output : val) (h' : list obj),
    handleInterceptorRequest input h = Ok output h'
    ∧ own_props h' (field h' (transformed_request h' output) "headers")
      = propagated h (field h gatewayRequest "headers") VUndefined
    ∧ own_props h'
        (field h' (field h' (field h' (transformed_request h' output) "body")
                     "params") "arguments")
      = prefixed h (field h gatewayRequest "headers")
        ∪ own_props h (field h (field h (VRef lb) "params") "arguments")
    ∧ json_tree (7 + n) h' output = true
    ∧ own_props h' output
      = <["interceptorOutputVersion" := VStr "1.0"]>
          (<["mcp" := field h' output "mcp"]> ∅)
    ∧ own_props h' (field h' output "mcp")
      = <["transformedGatewayRequest" := transformed_request h' output]> ∅.
Proof.
  intros Hi Hr Hb.
  destruct (handler_output n h input gatewayRequest lb Hi Hr Hb)
    as (lf & la' & lp' & lb' & lt & lm & lo & new & E & _
        & Eo & Em & Et & Ef & Eb & Ep & Ea).
  exists (VRef lo), (h ++ new). split; [done|].
  assert (field (h ++ new) (VRef lo) "mcp" = VRef lm) as Fm.
  { unfold field. by rewrite Eo. }
  assert (transformed_request (h ++ new) (VRef lo) = VRef lt) as Ft.
  { unfold transformed_request. rewrite Fm. unfold field. by rewrite Em. }
  rewrite Ft, Fm.
  assert (field (h ++ new) (VRef lt) "headers" = VRef lf) as ->.
  { unfold field. by rewrite Et. }
  assert (field (h ++ new) (VRef lt) "body" = VRef lb') as ->.
  { unfold field. by rewrite Et. }
  assert (field (h ++ new) (VRef lb') "params" = VRef lp') as ->.
  { unfold field. rewrite Eb. by rewrite lookup_insert_eq. }
  assert (field (h ++ new) (VRef lp') "arguments" = VRef la') as ->.
  { unfold field. rewrite Ep. by rewrite lookup_insert_eq. }
  split; [done|]. split; [done|]. split; [|done].
  pose proof (handler_run n h input gatewayRequest lb Hi Hr Hb) as E'.
  rewrite E' in E. injection E as <- E.
  rewrite <- E. by apply (handler_output_tree n h input gatewayRequest lb).
Qed.

Lemma get_prop_nullish (h : heap) v k :
  nullish v = true → ∃ msg, get_prop v k h = Throw (TypeError msg).
Proof. destruct v; try done; intros _; by eexists. Qed.

(** A JSON input without one of the nested objects the handler dereferences,
    or without a body, makes the handler throw a [TypeError]. *)
Lemma missing_field_throws n (h : heap) input :
  json_tree n h input = true →
  gateway_request h input = None
  ∨ (∃ gatewayRequest, gateway_request h input = Some gatewayRequest
                       ∧ nullish (field h gatewayRequest "body") = true) →
  ∃ msg, handleInterceptorRequest input h = Throw (TypeError msg).
Proof.
  intros Hi Hg. unfold handleInterceptorRequest. log_tree n.
  destruct (nullish input) eqn:N1.
  { destruct (get_prop_nullish h input "mcp" N1) as [msg E].
    exists msg. unfold bind at 1. by rewrite E. }
  read_field.
  destruct (nullish (field h input "mcp")) eqn:N2.
  { destruct (get_prop_nullish h _ "rawGatewayRequest" N2) as [msg E].
    exists msg. unfold bind at 1. by rewrite E. }
  read_field.
  destruct (nullish (field h (field h input "mcp") "rawGatewayRequest")) eqn:N3.
  { destruct (get_prop_nullish h _ "body" N3) as [msg E].
    exists msg. unfold bind at 1. by rewrite E. }
  do 2 read_field.
  set (gr := field h (field h input "mcp") "gatewayRequest").
  destruct (nullish gr) eqn:N4.
  { destruct (get_prop_nullish h _ "path" N4) as [msg E].
    exists msg. unfold bind at 1. by rewrite E. }
  assert (gateway_request h input = Some gr) as Eg.
  { unfold gateway_request. rewrite N1, N2, N3. fold gr. by rewrite N4. }
  destruct Hg as [Hg|(gr' & Hg & Nb)]; [congruence|].
  assert (gr' = gr) as -> by congruence.
  assert (json_tree n h gr = true) as Hgt by by do 2 apply field_tree.
  assert (json_tree n h (field h gr "headers") = true) as Hh
    by by apply field_tree.
  assert (json_tree n h (field h gr "body") = true) as Hb
    by by apply field_tree.
  do 3 read_field.
  log_tree n.
  read_field.
  log_tree n.
  unfold bind at 1.
  rewrite (propagateHeaders_run n)
    by first [by apply field_tree | by apply json_tree_prim].
  unfold bind at 1.
  rewrite (filterAndPrefixHeaders_run n) by by apply json_tree_app, field_tree.
  unfold bind at 1, mergeBody. unfold bind at 1.
  match goal with
  | |- context [get_prop ?v "params" ?h'] =>
      destruct (get_prop_nullish h' v "params" Nb) as [msg E]
  end.
  exists msg. by rewrite E.
Qed.

(** X6.  A header of the incoming mapping, end to end.  Whatever its name
    (other than [__proto__]), it is among the forwarded headers with its
    value.  When its name does not start with [x-amzn] in any letter case it
    is also an argument of the merged body, under its name prefixed with
    [mcp_header_], with the header's value even when the body had an
    argument of that name.  When its name does start with [x-amzn] the
    handler injects nothing for it: the argument of the prefixed name is
    what the body had, if anything. *)
Theorem header_end_to_end n (h : heap) input gatewayRequest lb l
    (H : gmap string string) (k s : string) :
  json_tree n h input = true →
  gateway_request h input = Some gatewayRequest →
  field h gatewayRequest "body" = VRef lb →
  field h gatewayRequest "headers" = VRef l →
  h !! l = Some (headers_obj H) →
  H !! k = Some s →
  ∃ (output : val) (h' : list obj),
    handleInterceptorRequest input h = Ok output h'
    ∧ let request := transformed_request h' output in
      let forwarded := own_props h' (field h' request "headers") in
      let arguments :=
        own_props h'
          (field h' (field h' (field h' request "body") "params") "arguments") in
      let existingArguments :=
        own_props h (field h (field h (VRef lb) "params") "arguments") in
      (k ≠ "__proto__" → forwarded !! k = Some (VStr s))
      ∧ (is_amzn k = false → arguments !! mcp_header k = Some (VStr s))
      ∧ (is_amzn k = true →
         arguments !! mcp_header k = existingArguments !! mcp_header k).
Proof.
  intros Hi Hr Hb Hh Hl Hk.
  destruct (handler_reads n h input gatewayRequest lb Hi Hr Hb)
    as (output & h' & E & Ef & Ea & _).
  exists output, h'. split; [done|]. simpl.
  rewrite Ef, Ea, Hh, (propagated_incoming h l H Hl), (prefixed_headers h l H Hl).
  split; [|split].
  - intros Hp. by rewrite lookup_fmap, lookup_delete_ne, Hk.
  - intros Ha. apply lookup_union_Some_l.
    rewrite lookup_kmap by apply _.
    apply map_lookup_filter_Some. split; [|done]. by rewrite lookup_fmap, Hk.
  - intros Ha. apply lookup_union_r.
    rewrite lookup_kmap by apply _.
    apply map_lookup_filter_None. right. intros v _. simpl. by rewrite Ha.
Qed.

Lemma header_end_to_end_witness :
  (json_tree 7 sample_store (VRef 0) = true
   ∧ gateway_request sample_store (VRef 0) = Some (VRef 3)
   ∧ field sample_store (VRef 3) "body" = VRef 5
   ∧ field sample_store (VRef 3) "headers" = VRef 4
   ∧ sample_store !! 4 = Some (headers_obj sample_headers)
   ∧ sample_headers !! "Authorization" = Some "Bearer t")
  ∧ ∃ (output : val) (h' : list obj),
      handleInterceptorRequest (VRef 0) sample_store = Ok output h'
      ∧ own_props h'
          (field h' (field h' (field h' (transformed_request h' output) "body")
                       "params") "arguments") !! "mcp_header_Authorization"
        = Some (VStr "Bearer t").
Proof.
  split; [repeat split; reflexivity|].
  destruct (header_end_to_end 7 sample_store (VRef 0) (VRef 3) 5 4
              sample_headers "Authorization" "Bearer t")
    as (output & h' & E & _ & Ha & _); try reflexivity.
  exists output, h'. split; [exact E|]. apply Ha. reflexivity.
Defined.

(** X7.  When the request of the envelope has no header mapping, or a
    falsy value in its place, the handler still returns a new header object
    and a new arguments object: the forwarded mapping is empty and the
    arguments of the merged body are the arguments the body had, nothing
    being injected. *)
Theorem no_headers_nothing_injected n (h : heap) input gatewayRequest lb :
  json_tree n h input = true →
  gateway_request h input = Some gatewayRequest →
  field h gatewayRequest "body" = VRef lb →
  truthy (field h gatewayRequest "headers") = false →
  ∃ (output : val) (h' : list obj) (lf la : loc),
    handleInterceptorRequest input h = Ok output h'
    ∧ field h' (transformed_request h' output) "headers" = VRef lf
    ∧ field h' (field h' (field h' (transformed_request h' output) "body")
                  "params") "arguments" = VRef la
    ∧ length h ≤ lf ∧ length h ≤ la
    ∧ own_props h' (VRef lf) = ∅
    ∧ own_props h' (VRef la)
      = own_props h (field h (field h (VRef lb) "params") "arguments").
Proof.
  intros Hi Hr Hb Ht.
  destruct (handler_output n h input gatewayRequest lb Hi Hr Hb)
    as (lf & la' & lp' & lb' & lt & lm & lo & new & E & Hfresh
        & Eo & Em & Et & Ef & Eb & Ep & Ea).
  assert (propagated h (field h gatewayRequest "headers") VUndefined = ∅) as Epr.
  { unfold propagated, loop_over. by rewrite Ht. }
  assert (prefixed h (field h gatewayRequest "headers") = ∅) as Epx.
  { unfold prefixed, loop_over. by rewrite Ht. }
  rewrite Epr in Ef. rewrite Epx, (left_id_L ∅ (∪)) in Ea.
  exists (VRef lo), (h ++ new), lf, la'. split; [done|].
  assert (field (h ++ new) (VRef lo) "mcp" = VRef lm) as Fm.
  { unfold field. by rewrite Eo. }
  assert (transformed_request (h ++ new) (VRef lo) = VRef lt) as ->.
  { unfold transformed_request. rewrite Fm. unfold field. by rewrite Em. }
  assert (field (h ++ new) (VRef lt) "body" = VRef lb') as ->.
  { unfold field. by rewrite Et. }
  assert (field (h ++ new) (VRef lb') "params" = VRef lp') as ->.
  { unfold field. rewrite Eb. by rewrite lookup_insert_eq. }
  split; [unfold field; by rewrite Et|].
  split; [unfold field; rewrite Ep; by rewrite lookup_insert_eq|].
  split; [lia|]. split; [lia|]. done.
Qed.

Lemma no_headers_nothing_injected_witness :
  (json_tree 6 bare_store (VRef 0) = true
   ∧ gateway_request bare_store (VRef 0) = Some (VRef 3)
   ∧ field bare_store (VRef 3) "body" = VRef 4
   ∧ truthy (field bare_store (VRef 3) "headers") = false)
  ∧ ∃ (output : val) (h' : list obj) (lf la : loc),
      handleInterceptorRequest (VRef 0) bare_store = Ok output h'
      ∧ own_props h' (VRef lf) = ∅
      ∧ own_props h' (VRef la) = {["q" := VStr "x"]}.
Proof.
  split; [repeat split; reflexivity|].
  destruct (no_headers_nothing_injected 6 bare_store (VRef 0) (VRef 3) 4)
    as (output & h' & lf & la & E & _ & _ & _ & _ & Ef & Ea);
    try reflexivity.
  exists output, h', lf, la. split; [exact E|]. split; [exact Ef|exact Ea].
Defined.

(** The body-reshaping step on any body that is not [undefined] or [null]:
    a primitive body is spread like an object. *)
Lemma mergeBody_run_any n (h : heap) originalBody prefixedHeaders :
  nullish originalBody = false →
  json_tree n h originalBody = true →
  json_tree n h prefixedHeaders = true →
  mergeBody originalBody prefixedHeaders h
  = Ok (VRef (merged_body_loc h originalBody))
       (h ++ merged h originalBody prefixedHeaders).
Proof.
  intros Nb Hb Hp. unfold mergeBody.
  unfold bind at 1. rewrite get_prop_field by done.
  pose proof (field_tree n h originalBody "params" Hb) as Hpf.
  destruct (or_empty_run n h [] _ Hpf) as (pv & Epv & Npv & Opv).
  rewrite (right_id_L [] (++)) in Epv. simpl in Epv, Opv.
  unfold bind at 1. rewrite Epv.
  unfold bind at 1. rewrite get_prop_field by done.
  assert (field (h ++ fresh_objects (field h originalBody "params")) pv "arguments"
          = arguments_field h originalBody) as ->.
  { unfold field at 1, arguments_field, params_of.
    by rewrite <- (Opv []), (right_id_L [] (++)). }
  assert (json_tree n h (arguments_field h originalBody) = true) as Haf.
  { unfold arguments_field.
    destruct (params_of h originalBody !! "arguments") as [c|] eqn:E.
    - by apply (spread_or_empty_tree n h _ _ _ Hpf E).
    - by destruct n. }
  destruct (or_empty_run n h (fresh_objects (field h originalBody "params")) _ Haf)
    as (ev & Eev & Nev & Oev).
  unfold bind at 1. rewrite Eev.
  fold (merge_defaults h originalBody) in *.
  set (D := merge_defaults h originalBody) in *.
  assert (own_props (h ++ D) prefixedHeaders = own_props h prefixedHeaders)
    as E1 by by apply (own_props_app n).
  assert (own_props (h ++ D) ev = arguments_of h originalBody) as E2.
  { specialize (Oev []). by rewrite (right_id_L [] (++)) in Oev. }
  assert (∀ X, own_props (h ++ D ++ X) pv = params_of h originalBody) as E3.
  { intros X. subst D. unfold merge_defaults.
    rewrite <- (assoc_L (++)). apply Opv. }
  assert (∀ X, own_props (h ++ D ++ X) originalBody = own_props h originalBody)
    as E4.
  { intros X. by apply (own_props_app n). }
  unfold bind, alloc. rewrite E1, E2.
  rewrite <- !(assoc_L (++)). rewrite E3, E4.
  unfold merged, merged_objects, merged_body_loc, merged_params_loc,
    merged_arguments_loc. fold D.
  rewrite !length_app. simpl.
  replace (length h + (length D + 1)) with (S (length h + length D)) by lia.
  replace (length h + (length D + 2)) with (S (S (length h + length D))) by lia.
  done.
Qed.

(** The handler on a JSON input with the nested objects and any body that
    is not [undefined] or [null]. *)
Lemma handler_run_any n (h : heap) input gatewayRequest :
  json_tree n h input = true →
  gateway_request h input = Some gatewayRequest →
  nullish (field h gatewayRequest "body") = false →
  handleInterceptorRequest input h
  = Ok (VRef (output_loc h (field h gatewayRequest "headers")
                (field h gatewayRequest "body")))
       (h ++ handler_objects h (field h gatewayRequest "headers")
               (field h gatewayRequest "body")).
Proof.
  intros Hinput Hrequest Nb.
  pose proof (gateway_request_tree n h input gatewayRequest Hinput Hrequest)
    as Hgt.
  pose proof (gateway_request_Some h input gatewayRequest Hrequest)
    as (N1 & N2 & N3 & Egr & N4).
  set (hdrs := field h gatewayRequest "headers").
  set (body := field h gatewayRequest "body") in *.
  assert (json_tree n h hdrs = true) as Hh by by apply field_tree.
  assert (json_tree n h body = true) as Hb by by apply field_tree.
  unfold handleInterceptorRequest.
  log_tree n.
  do 4 read_field. rewrite <- Egr.
  do 3 read_field. fold hdrs.
  log_tree n.
  read_field. fold body.
  log_tree n.
  unfold bind at 1.
  rewrite (propagateHeaders_run n) by (done || by apply json_tree_prim).
  set (o1 := Obj Plain (propagated h hdrs VUndefined)).
  unfold bind at 1.
  rewrite (filterAndPrefixHeaders_run n) by by apply json_tree_app.
  rewrite (prefixed_app n) by done.
  set (o2 := Obj Plain (prefixed h hdrs)).
  assert ((h ++ [o1]) ++ [o2] = headers_done h hdrs) as Eh2.
  { unfold headers_done. by rewrite <- (assoc_L (++)). }
  assert (length (h ++ [o1]) = prefixed_loc h) as El1.
  { rewrite length_app. unfold prefixed_loc. simpl. lia. }
  rewrite El1.
  assert (json_tree (S n) ((h ++ [o1]) ++ [o2]) (VRef (prefixed_loc h)) = true)
    as Hp2.
  { rewrite <- El1. apply json_tree_new. intros k c Hk.
    apply json_tree_app. by apply (prefixed_tree n h hdrs k). }
  assert (json_tree (S n) (h ++ [o1]) (VRef (forwarded_loc h)) = true) as Hf1.
  { apply json_tree_new. intros k c Hk.
    apply (propagated_tree n h hdrs VUndefined k); [done| |done].
    by apply json_tree_prim. }
  rewrite Eh2 in *. set (h2 := headers_done h hdrs) in *.
  assert (json_tree (S n) h2 body = true) as Hb2.
  { rewrite <- Eh2. by apply json_tree_S, json_tree_app, json_tree_app. }
  unfold bind at 1. rewrite (mergeBody_run_any (S n)) by done.
  pose proof (merged_tree (S n) h2 body (VRef (prefixed_loc h)) Hb2 Hp2)
    as Hm.
  set (body_objects := merged h2 body (VRef (prefixed_loc h))) in *.
  set (lm := merged_body_loc h2 body) in *.
  set (h3 := h2 ++ body_objects) in *.
  assert (json_tree (S (S (S (S n)))) h3 (VRef (forwarded_loc h)) = true) as Hf3.
  { do 3 apply json_tree_S. subst h3. rewrite <- Eh2.
    by do 2 apply json_tree_app. }
  unfold bind at 1, alloc at 1. unfold bind at 1, alloc at 1.
  unfold bind at 1, alloc at 1.
  set (t := Obj Plain (<["headers" := VRef (length h)]>
                         (<["body" := VRef lm]> ∅))).
  set (m := Obj Plain (<["transformedGatewayRequest" := VRef (length h3)]> ∅)).
  set (o := Obj Plain (<["interceptorOutputVersion" := VStr "1.0"]>
                         (<["mcp" := VRef (length (h3 ++ [t]))]> ∅))).
  assert (json_tree (5 + n) (h3 ++ [t]) (VRef (length h3)) = true) as Ht.
  { apply json_tree_new. intros k c.
    intros [[_ <-]|[_ [[_ <-]|[_ Hc]]%lookup_insert_Some]]%lookup_insert_Some;
      done. }
  assert (json_tree (6 + n) ((h3 ++ [t]) ++ [m]) (VRef (length (h3 ++ [t])))
          = true) as Hmcp.
  { apply json_tree_new. intros k c.
    by intros [[_ <-]|[_ Hc]]%lookup_insert_Some. }
  unfold bind, console_log_json, ret.
  rewrite (JSON_stringify_tree (7 + n)).
  2:{ apply json_tree_new. intros k c.
      intros [[_ <-]|[_ [[_ <-]|[_ Hc]]%lookup_insert_Some]]%lookup_insert_Some;
        done. }
  f_equal.
  - f_equal. unfold output_loc, mcp_loc, request_loc.
    fold h2 body_objects. subst h3. rewrite !length_app. simpl. lia.
  - unfold handler_objects, envelope_objects. fold h2 body_objects lm.
    subst h3 t m o. rewrite !length_app. simpl.
    replace (length h2 + length body_objects + 1)
      with (S (length h2 + length body_objects)) by lia.
    unfold forwarded_loc.
    subst h2. unfold headers_done at 1 5.
    by rewrite <- !(assoc_L (++)).
Qed.

(** X8.  When the handler returns and when it throws, for every input that
    is a JSON value: it returns exactly when the input has the nested
    objects [mcp], [mcp.rawGatewayRequest] and [mcp.gatewayRequest] and a
    body that is not [undefined] or [null]; otherwise it throws a
    [TypeError], and it throws nothing else.  Headers are not required, and
    a body that is a string or a number does not make it throw. *)
Theorem handleInterceptorRequest_returns_or_throws n (h : heap) (input : val) :
  json_tree n h input = true →
  match handleInterceptorRequest input h with
  | Ok output h' =>
      ∃ gatewayRequest new,
        gateway_request h input = Some gatewayRequest
        ∧ nullish (field h gatewayRequest "body") = false
        ∧ h' = h ++ new
  | Throw e =>
      (∃ msg, e = TypeError msg)
      ∧ (gateway_request h input = None
         ∨ ∃ gatewayRequest,
             gateway_request h input = Some gatewayRequest
             ∧ nullish (field h gatewayRequest "body") = true)
  end.
Proof.
  intros Hi.
  destruct (gateway_request h input) as [gr|] eqn:Eg.
  - destruct (nullish (field h gr "body")) eqn:Nb.
    + destruct (missing_field_throws n h input Hi) as [msg ->].
      { right. by exists gr. }
      split; [by exists msg|]. right. by exists gr.
    + rewrite (handler_run_any n h input gr Hi Eg Nb). by eexists gr, _.
  - destruct (missing_field_throws n h input Hi) as [msg ->]; [by left|].
    split; [by exists msg|by left].
Qed.

Lemma handleInterceptorRequest_returns_or_throws_witness :
  json_tree 7 sample_store (VRef 0) = true
  ∧ match handleInterceptorRequest (VRef 0) sample_store with
    | Ok output h' =>
        ∃ gatewayRequest new,
          gateway_request sample_store (VRef 0) = Some gatewayRequest
          ∧ nullish (field sample_store gatewayRequest "body") = false
          ∧ h' = sample_store ++ new
    | Throw e =>
        (∃ msg, e = TypeError msg)
        ∧ (gateway_request sample_store (VRef 0) = None
           ∨ ∃ gatewayRequest,
               gateway_request sample_store (VRef 0) = Some gatewayRequest
               ∧ nullish (field sample_store gatewayRequest "body") = true)
    end.
Proof.
  split; [reflexivity|].
  apply (handleInterceptorRequest_returns_or_throws 7 sample_store (VRef 0)).
  reflexivity.
Defined.

(** X9.  The output envelope of a JSON input is itself a JSON value of the
    final store, so serializing it cannot throw; and it is not an input
    envelope: it has no [mcp.rawGatewayRequest], and the handler applied to
    its own output throws a [TypeError]. *)
Theorem output_is_json_not_input n (h : heap) input gatewayRequest lb :
  json_tree n h input = true →
  gateway_request h input = Some gatewayRequest →
  field h gatewayRequest "body" = VRef lb →
  ∃ (output : val) (h' : list obj) (msg : string),
    handleInterceptorRequest input h = Ok output h'
    ∧ json_tree (7 + n) h' output = true
    ∧ JSON_stringify output h' = Ok tt h'
    ∧ gateway_request h' output = None
    ∧ handleInterceptorRequest output h' = Throw (TypeError msg).
Proof.
  intros Hi Hr Hb.
  destruct (handler_reads n h input gatewayRequest lb Hi Hr Hb)
    as (output & h' & E & _ & _ & Ht & Eo & Em).
  assert (gateway_request h' output = None) as Eg.
  { unfold gateway_request. destruct (nullish output); [done|].
    destruct (nullish (field h' output "mcp")); [done|].
    assert (field h' (field h' output "mcp") "rawGatewayRequest" = VUndefined)
      as ->; [|done].
    unfold field at 1. rewrite Em. by rewrite lookup_insert_ne. }
  destruct (missing_field_throws (7 + n) h' output Ht) as [msg Et]; [by left|].
  exists output, h', msg. split; [done|]. split; [done|].
  split; [by apply (JSON_stringify_tree (7 + n))|]. done.
Qed.

Lemma output_is_json_not_input_witness :
  (json_tree 7 sample_store (VRef 0) = true
   ∧ gateway_request sample_store (VRef 0) = Some (VRef 3)
   ∧ field sample_store (VRef 3) "body" = VRef 5)
  ∧ ∃ (output : val) (h' : list obj) (msg : string),
      handleInterceptorRequest (VRef 0) sample_store = Ok output h'
      ∧ handleInterceptorRequest output h' = Throw (TypeError msg).
Proof.
  split; [repeat split; reflexivity|].
  destruct (output_is_json_not_input 7 sample_store (VRef 0) (VRef 3) 5)
    as (output & h' & msg & E & _ & _ & _ & Et); try reflexivity.
  exists output, h', msg. split; [exact E|exact Et].
Defined.

(** ** The body-reshaping step, repeated *)

(** X10.  The body-reshaping step is idempotent up to the identity of the
    objects it creates: applied to its own result with the same filtered
    headers it returns three more new objects whose fields are those of the
    first result, the nested references apart.  The injected headers are
    not duplicated and nothing of the body is lost. *)
Theorem mergeBody_twice n (h : heap) (lb : loc) (prefixedHeaders : val) :
  json_tree n h (VRef lb) = true →
  json_tree n h prefixedHeaders = true →
  ∃ (b1 p1 a1 b2 p2 a2 : loc) (h1 h2 : list obj),
    mergeBody (VRef lb) prefixedHeaders h = Ok (VRef b1) h1
    ∧ mergeBody (VRef b1) prefixedHeaders h1 = Ok (VRef b2) h2
    ∧ (length h ≤ a1 ∧ a1 < p1 ∧ p1 < b1 ∧ b1 < a2 ∧ a2 < p2 ∧ p2 < b2)
    ∧ own_props h2 (VRef b1) = <["params" := VRef p1]> (own_props h (VRef lb))
    ∧ own_props h2 (VRef b2) = <["params" := VRef p2]> (own_props h (VRef lb))
    ∧ own_props h2 (VRef p1)
      = <["arguments" := VRef a1]> (own_props h (field h (VRef lb) "params"))
    ∧ own_props h2 (VRef p2)
      = <["arguments" := VRef a2]> (own_props h (field h (VRef lb) "params"))
    ∧ own_props h2 (VRef a2) = own_props h2 (VRef a1)
    ∧ own_props h2 (VRef a1)
      = own_props h prefixedHeaders
        ∪ own_props h (field h (field h (VRef lb) "params") "arguments").
Proof.
  intros Hb Hp.
  set (h1 := h ++ merged h (VRef lb) prefixedHeaders).
  set (b1 := merged_body_loc h (VRef lb)).
  assert (json_tree (3 + n) h1 (VRef b1) = true) as Hb1
    by by apply merged_tree.
  assert (json_tree (3 + n) h1 prefixedHeaders = true) as Hp1.
  { apply (json_tree_mono n); [lia|]. by apply json_tree_app. }
  destruct (merged_own_props h (VRef lb) prefixedHeaders) as (Ea1 & Ep1 & Eb1).
  destruct (merged_own_props h1 (VRef b1) prefixedHeaders) as (Ea2 & Ep2 & Eb2).
  cbv zeta in Ea1, Ep1, Eb1, Ea2, Ep2, Eb2.
  fold h1 b1 in Ea1, Ep1, Eb1.
  rewrite params_of_own in Ep1, Ep2. rewrite arguments_of_own in Ea1, Ea2.
  set (p1 := merged_params_loc h (VRef lb)) in *.
  set (a1 := merged_arguments_loc h (VRef lb)) in *.
  set (h2 := h1 ++ merged h1 (VRef b1) prefixedHeaders) in *.
  pose proof (length_merged h (VRef lb) prefixedHeaders) as Hl1.
  pose proof (merged_body_loc_ge h (VRef lb)) as Hge1.
  pose proof (merged_body_loc_ge h1 (VRef b1)) as Hge2.
  fold h1 b1 in Hl1. fold a1 in Hge1.
  assert (b1 = S p1 ∧ p1 = S a1) as [Eb Ep] by done.
  assert (field h1 (VRef b1) "params" = VRef p1) as Fp.
  { unfold field. rewrite Eb1. by rewrite lookup_insert_eq. }
  assert (field h1 (VRef p1) "arguments" = VRef a1) as Fa.
  { unfold field. rewrite Ep1. by rewrite lookup_insert_eq. }
  rewrite Fp in Ep2, Ea2. rewrite Fa in Ea2.
  rewrite Ep1 in Ep2. rewrite Eb1 in Eb2. rewrite Ea1 in Ea2.
  rewrite insert_insert_eq in Ep2, Eb2.
  assert (own_props h1 prefixedHeaders = own_props h prefixedHeaders) as Eph
    by by apply (own_props_app n).
  rewrite Eph, (assoc_L (∪)), (idemp_L (∪)) in Ea2.
  exists b1, p1, a1, (merged_body_loc h1 (VRef b1)),
    (merged_params_loc h1 (VRef b1)), (merged_arguments_loc h1 (VRef b1)), h1, h2.
  split; [by apply (mergeBody_run n)|].
  split; [by apply (mergeBody_run (3 + n))|].
  split.
  { unfold merged_body_loc, merged_params_loc in *. repeat split; lia. }
  rewrite Eb2, Ep2, Ea2.
  unfold h2. rewrite !own_props_old by lia.
  by rewrite Eb1, Ep1, Ea1.
Qed.

Lemma mergeBody_twice_witness :
  (json_tree 3 sample_nested_body (VRef 0) = true
   ∧ json_tree 3 sample_nested_body (VRef 3) = true)
  ∧ ∃ (b1 p1 a1 b2 p2 a2 : loc) (h1 h2 : list obj),
      mergeBody (VRef 0) (VRef 3) sample_nested_body = Ok (VRef b1) h1
      ∧ mergeBody (VRef b1) (VRef 3) h1 = Ok (VRef b2) h2
      ∧ own_props h2 (VRef a2) = own_props h2 (VRef a1).
Proof.
  split; [split; reflexivity|].
  destruct (mergeBody_twice 3 sample_nested_body 0 (VRef 3))
    as (b1 & p1 & a1 & b2 & p2 & a2 & h1 & h2 & E1 & E2 & _ & _ & _ & _ & _
        & Ea & _); try reflexivity.
  exists b1, p1, a1, b2, p2, a2, h1, h2.
  split; [exact E1|]. split; [exact E2|exact Ea].
Defined.

(** ** The dispatcher *)

Lemma await_get_prop (h : heap) v k :
  nullish v = false → await (get_prop v k) h = Fulfilled (field h v k) h.
Proof. intros Hv. unfold await. by rewrite get_prop_field. Qed.

Lemma json_response_run (h : heap) statusCode text :
  json_response statusCode text h
  = Ok (VRef (S (length h))) (h ++ response_objects (length h) statusCode text).
Proof.
  unfold json_response, bind, alloc, response_objects.
  rewrite length_app, <- (assoc_L (++)). simpl. do 2 f_equal. lia.
Qed.

Lemma JSON_stringify_text_run render n (h : heap) v :
  json_tree n h v = true → v ≠ VUndefined →
  JSON_stringify_text render v h = Ok (VStr (render h v)) h.
Proof.
  intros Hv Hu. unfold JSON_stringify_text, bind.
  rewrite (JSON_stringify_tree n) by done. by destruct v.
Qed.

(** A response with the text of a JSON value. *)
Lemma respond_run render n (h : heap) statusCode v :
  json_tree n h v = true → v ≠ VUndefined →
  (let? text := await (JSON_stringify_text render v) in
   await (json_response statusCode text)) h
  = Fulfilled (VRef (S (length h)))
      (h ++ response_objects (length h) statusCode (VStr (render h v))).
Proof.
  intros Hv Hu. unfold and_then, await.
  by rewrite (JSON_stringify_text_run render n), json_response_run.
Qed.

Lemma parse_body_run JSON_parse (h : heap) event :
  nullish event = false →
  parse_body JSON_parse event h
  = if truthy (field h event "body") then JSON_parse (field h event "body") h
    else Fulfilled (VRef (length h)) (h ++ [empty_object]).
Proof.
  intros Hv. unfold parse_body, and_then. rewrite await_get_prop by done.
  by destruct (truthy (field h event "body")).
Qed.

Section dispatcher.
Context (JSON_parse : val → P val) (render : list obj → val → string).
Context (n : nat) (h : list obj) (event context : val).
Hypothesis Hevent : json_tree n h event = true.
Hypothesis Hcontext : json_tree n h context = true.

(** The two log lines of the dispatcher do not throw on JSON values. *)
Lemma handler_logged :
  handler JSON_parse render event context h
  = (if isInterceptorInput h event then
       await (handleInterceptorRequest event)
     else
       let? path := await (get_prop event "path") in
       let? method := await (get_prop event "httpMethod") in
       if bool_decide (path = VStr "/echo")
          && bool_decide (method = VStr "POST") then
         let? body := parse_body JSON_parse event in
         let? text := await (JSON_stringify_text render body) in
         await (json_response 200 text)
       else if bool_decide (path = VStr "/intercept")
               && bool_decide (method = VStr "POST") then
         let? input := parse_body JSON_parse event in
         let? output := await (handleInterceptorRequest input) in
         let? text := await (JSON_stringify_text render output) in
         await (json_response 200 text)
       else
         let? message :=
           await (alloc (Obj Plain {["message" := VStr "Not Found"]})) in
         let? text := await (JSON_stringify_text render message) in
         await (json_response 404 text)) h.
Proof.
  unfold handler. unfold and_then at 1, await at 1, console_log_json at 1.
  rewrite (JSON_stringify_tree n) by done.
  unfold and_then at 1, await at 1, console_log_json at 1.
  by rewrite (JSON_stringify_tree n) by done.
Qed.

Hypothesis Hnot : isInterceptorInput h event = false.
Hypothesis Hsome : nullish event = false.

(** The dispatch on the path and the method of an event that is not an
    interceptor input. *)
Lemma handler_routed :
  handler JSON_parse render event context h
  = (if routed h event "/echo" then
       let? body := parse_body JSON_parse event in
       let? text := await (JSON_stringify_text render body) in
       await (json_response 200 text)
     else if routed h event "/intercept" then
       let? input := parse_body JSON_parse event in
       let? output := await (handleInterceptorRequest input) in
       let? text := await (JSON_stringify_text render output) in
       await (json_response 200 text)
     else
       let? message :=
         await (alloc (Obj Plain {["message" := VStr "Not Found"]})) in
       let? text := await (JSON_stringify_text render message) in
       await (json_response 404 text)) h.
Proof.
  rewrite handler_logged, Hnot.
  unfold and_then at 1. rewrite await_get_prop by done.
  unfold and_then at 1. rewrite await_get_prop by done.
  unfold routed.
  by repeat case_match.
Qed.

End dispatcher.

(** X11.  Direct invocation takes precedence.  An event (a JSON value)
    that is an object with the properties [interceptorInputVersion] and
    [mcp] is handed to [handleInterceptorRequest] and the promise settles
    with what that call returns or throws, whatever [path], [httpMethod] and
    [body] the event has; [JSON.parse] is not consulted.  The guard tests
    the presence of the two properties only: an event whose [mcp] is [null]
    or [undefined] passes it and the promise is rejected with a
    [TypeError]. *)
Theorem handler_direct_invocation (JSON_parse JSON_parse' : val → P val)
    (render : list obj → val → string) n (h : heap) (event context : val) :
  json_tree n h event = true →
  json_tree n h context = true →
  isInterceptorInput h event = true →
  handler JSON_parse render event context h
  = await (handleInterceptorRequest event) h
  ∧ handler JSON_parse' render event context h
    = handler JSON_parse render event context h
  ∧ (nullish (field h event "mcp") = true →
     ∃ msg, handler JSON_parse render event context h
            = Rejected (Thrown (TypeError msg)))
  ∧ (∀ gatewayRequest lb,
       gateway_request h event = Some gatewayRequest →
       field h gatewayRequest "body" = VRef lb →
       ∃ output new,
         handler JSON_parse render event context h
         = Fulfilled output (h ++ new)
         ∧ field (h ++ new) output "interceptorOutputVersion" = VStr "1.0").
Proof.
  intros He Hc Hi.
  assert (∀ JP, handler JP render event context h
                = await (handleInterceptorRequest event) h) as E.
  { intros JP. by rewrite (handler_logged JP render n), Hi. }
  split; [apply E|]. split; [by rewrite !E|]. rewrite E. split.
  - intros Hm.
    destruct (missing_field_throws n h event He) as [msg Et].
    { left. unfold gateway_request. destruct (nullish event); [done|].
      by rewrite Hm. }
    exists msg. unfold await. by rewrite Et.
  - intros gr lb Hg Hb.
    destruct (handler_output n h event gr lb He Hg Hb)
      as (lf & la' & lp' & lb' & lt & lm & lo & new & Er & _ & Eo & _).
    exists (VRef lo), new. unfold await. rewrite Er. split; [done|].
    unfold field. by rewrite Eo.
Qed.

Lemma handler_direct_invocation_witness :
  (json_tree 4 direct_event_store (VRef 0) = true
   ∧ json_tree 4 direct_event_store VNull = true
   ∧ isInterceptorInput direct_event_store (VRef 0) = true)
  ∧ handler sample_parse sample_render (VRef 0) VNull direct_event_store
    = await (handleInterceptorRequest (VRef 0)) direct_event_store.
Proof.
  split; [repeat split; reflexivity|].
  apply (handler_direct_invocation sample_parse sample_parse sample_render 4
           direct_event_store (VRef 0) VNull); reflexivity.
Defined.

(** X12.  Every other event gets the 404 response.  For an event that is
    not an interceptor input and is not [null] or [undefined], and whose
    path and method are not [POST /echo] or [POST /intercept], the promise
    is fulfilled with a new response object: status 404, the JSON content
    type, and as body the text of a new object [{message: "Not Found"}].
    The event is not written to and [JSON.parse] is not consulted. *)
Theorem handler_not_found (JSON_parse : val → P val)
    (render : list obj → val → string) n (h : heap) (event context : val) :
  json_tree n h event = true →
  json_tree n h context = true →
  isInterceptorInput h event = false →
  nullish event = false →
  routed h event "/echo" = false →
  routed h event "/intercept" = false →
  let h1 := h ++ [Obj Plain {["message" := VStr "Not Found"]}] in
  handler JSON_parse render event context h
  = Fulfilled (VRef (length h + 2))
      (h1 ++ response_objects (length h + 1) 404
               (VStr (render h1 (VRef (length h))))).
Proof.
  intros He Hc Hi Hn Hecho Hint h1.
  rewrite (handler_routed JSON_parse render n) by done.
  rewrite Hecho, Hint.
  unfold and_then at 1, await at 1, alloc. fold h1.
  rewrite (respond_run render 1).
  - subst h1. rewrite length_app. simpl.
    by replace (S (length h + 1)) with (length h + 2) by lia.
  - subst h1. apply json_tree_new.
    by intros k c [<- <-]%lookup_singleton_Some.
  - done.
Qed.

Lemma handler_not_found_witness :
  (json_tree 1 get_event_store (VRef 0) = true
   ∧ json_tree 1 get_event_store VNull = true
   ∧ isInterceptorInput get_event_store (VRef 0) = false
   ∧ nullish (VRef 0) = false
   ∧ routed get_event_store (VRef 0) "/echo" = false
   ∧ routed get_event_store (VRef 0) "/intercept" = false)
  ∧ ∃ h', handler sample_parse sample_render (VRef 0) VNull get_event_store
          = Fulfilled (VRef 3) h'
          ∧ field h' (VRef 3) "statusCode" = VNum 404
          ∧ field h' (VRef 3) "headers" = VRef 2.
Proof.
  split; [repeat split; reflexivity|].
  eexists. split.
  - apply (handler_not_found sample_parse sample_render 1 get_event_store
             (VRef 0) VNull); reflexivity.
  - split; reflexivity.
Defined.

Lemma routed_intercept_not_echo (h : heap) event :
  routed h event "/intercept" = true → routed h event "/echo" = false.
Proof.
  unfold routed. intros [Hp _]%andb_true_iff.
  apply bool_decide_eq_true_1 in Hp. rewrite Hp.
  by rewrite (bool_decide_eq_false_2 (VStr "/intercept" = VStr "/echo")).
Qed.

(** X13.  Two events make the dispatcher reject with a [TypeError]: an
    event that is [null] or [undefined], whose [path] cannot be read; and a
    [POST /intercept] event without a body (or with an empty one), for which
    the handler is called on a new empty object, which has no [mcp]. *)
Theorem handler_rejects_TypeError (JSON_parse : val → P val)
    (render : list obj → val → string) n (h : heap) (event context : val) :
  json_tree n h event = true →
  json_tree n h context = true →
  isInterceptorInput h event = false →
  nullish event = true
  ∨ (routed h event "/intercept" = true
     ∧ truthy (field h event "body") = false) →
  ∃ msg, handler JSON_parse render event context h
         = Rejected (Thrown (TypeError msg)).
Proof.
  intros He Hc Hi Hcase.
  destruct (nullish event) eqn:Hn.
  - rewrite (handler_logged JSON_parse render n), Hi by done.
    destruct (get_prop_nullish h event "path" Hn) as [msg E].
    exists msg. unfold and_then, await. by rewrite E.
  - destruct Hcase as [?|[Hr Hb]]; [done|].
    rewrite (handler_routed JSON_parse render n) by done.
    rewrite (routed_intercept_not_echo h event Hr), Hr.
    unfold and_then at 1. rewrite parse_body_run, Hb by done.
    destruct (missing_field_throws 1 (h ++ [empty_object]) (VRef (length h)))
      as [msg E].
    { by apply json_tree_new. }
    { left. unfold gateway_request, field. simpl. by rewrite lookup_new. }
    exists msg. unfold and_then, await. by rewrite E.
Qed.

Lemma handler_rejects_TypeError_witness :
  (json_tree 1 empty_intercept_event_store (VRef 0) = true
   ∧ json_tree 1 empty_intercept_event_store VNull = true
   ∧ isInterceptorInput empty_intercept_event_store (VRef 0) = false
   ∧ routed empty_intercept_event_store (VRef 0) "/intercept" = true
   ∧ truthy (field empty_intercept_event_store (VRef 0) "body") = false)
  ∧ ∃ msg, handler sample_parse sample_render (VRef 0) VNull
             empty_intercept_event_store
           = Rejected (Thrown (TypeError msg)).
Proof.
  split; [repeat split; reflexivity|].
  apply (handler_rejects_TypeError sample_parse sample_render 1
           empty_intercept_event_store (VRef 0) VNull);
    [reflexivity..|right; split; reflexivity].
Defined.

(** X14.  A body that [JSON.parse] rejects makes the dispatcher reject with
    the same error on both routes: nothing catches the [SyntaxError], and
    no response object is returned. *)
Theorem handler_parse_error (JSON_parse : val → P val)
    (render : list obj → val → string) n (h : heap) (event context : val)
    (r : reason) :
  json_tree n h event = true →
  json_tree n h context = true →
  isInterceptorInput h event = false →
  nullish event = false →
  routed h event "/echo" = true ∨ routed h event "/intercept" = true →
  truthy (field h event "body") = true →
  JSON_parse (field h event "body") h = Rejected r →
  handler JSON_parse render event context h = Rejected r.
Proof.
  intros He Hc Hi Hn Hr Hb Hp.
  rewrite (handler_routed JSON_parse render n) by done.
  destruct Hr as [Hr|Hr].
  - rewrite Hr. unfold and_then at 1. by rewrite parse_body_run, Hb, Hp.
  - rewrite (routed_intercept_not_echo h event Hr), Hr.
    unfold and_then at 1. by rewrite parse_body_run, Hb, Hp.
Qed.

Lemma handler_parse_error_witness :
  (json_tree 1 broken_event_store (VRef 0) = true
   ∧ json_tree 1 broken_event_store VNull = true
   ∧ isInterceptorInput broken_event_store (VRef 0) = false
   ∧ nullish (VRef 0) = false
   ∧ routed broken_event_store (VRef 0) "/intercept" = true
   ∧ truthy (field broken_event_store (VRef 0) "body") = true
   ∧ sample_parse (field broken_event_store (VRef 0) "body") broken_event_store
     = Rejected (SyntaxError "Unexpected end of JSON input"))
  ∧ handler sample_parse sample_render (VRef 0) VNull broken_event_store
    = Rejected (SyntaxError "Unexpected end of JSON input").
Proof.
  split; [repeat split; reflexivity|].
  apply (handler_parse_error sample_parse sample_render 1 broken_event_store
           (VRef 0) VNull);
    [reflexivity..|right; reflexivity|reflexivity|reflexivity].
Defined.

(** X15.  The echo route.  For a [POST /echo] event the promise is
    fulfilled with a new response object of status 200 and the JSON content
    type, whose body is the text of what [JSON.parse] made of the event's
    body, or of a new empty object when the event has no body.  The handler
    of the interceptor is not involved: beyond what [JSON.parse] created,
    the store grows by the two objects of the response only. *)
Theorem handler_echo (JSON_parse : val → P val)
    (render : list obj → val → string) n (h : heap) (event context : val) :
  json_tree n h event = true →
  json_tree n h context = true →
  isInterceptorInput h event = false →
  nullish event = false →
  routed h event "/echo" = true →
  (truthy (field h event "body") = false →
   handler JSON_parse render event context h
   = Fulfilled (VRef (length h + 2))
       ((h ++ [empty_object])
        ++ response_objects (length h + 1) 200
             (VStr (render (h ++ [empty_object]) (VRef (length h))))))
  ∧ (∀ m (v : val) (h1 : list obj),
       truthy (field h event "body") = true →
       JSON_parse (field h event "body") h = Fulfilled v h1 →
       json_tree m h1 v = true →
       v ≠ VUndefined →
       handler JSON_parse render event context h
       = Fulfilled (VRef (S (length h1)))
           (h1 ++ response_objects (length h1) 200 (VStr (render h1 v)))).
Proof.
  intros He Hc Hi Hn Hr.
  rewrite (handler_routed JSON_parse render n), Hr by done.
  split.
  - intros Hb. unfold and_then at 1. rewrite parse_body_run, Hb by done.
    rewrite (respond_run render 1).
    + rewrite length_app. simpl.
      by replace (S (length h + 1)) with (length h + 2) by lia.
    + by apply json_tree_new.
    + done.
  - intros m v h1 Hb Hp Hv Hu.
    unfold and_then at 1. rewrite parse_body_run, Hb, Hp by done.
    by rewrite (respond_run render m).
Qed.

Lemma handler_echo_witness :
  (json_tree 1 echo_event_store (VRef 0) = true
   ∧ json_tree 1 echo_event_store VNull = true
   ∧ isInterceptorInput echo_event_store (VRef 0) = false
   ∧ nullish (VRef 0) = false
   ∧ routed echo_event_store (VRef 0) "/echo" = true
   ∧ truthy (field echo_event_store (VRef 0) "body") = true
   ∧ sample_parse (field echo_event_store (VRef 0) "body") echo_event_store
     = Fulfilled (VRef 1) (echo_event_store ++ parsed_envelope 1)
   ∧ json_tree 4 (echo_event_store ++ parsed_envelope 1) (VRef 1) = true
   ∧ VRef 1 ≠ VUndefined)
  ∧ ∃ h', handler sample_parse sample_render (VRef 0) VNull echo_event_store
          = Fulfilled (VRef 8) h'
          ∧ field h' (VRef 8) "statusCode" = VNum 200.
Proof.
  split; [repeat split; (reflexivity || done)|].
  eexists. split.
  - apply (proj2 (handler_echo sample_parse sample_render 1 echo_event_store
                    (VRef 0) VNull eq_refl eq_refl eq_refl eq_refl eq_refl)
             4 (VRef 1) (echo_event_store ++ parsed_envelope 1));
      [reflexivity..|done].
  - reflexivity.
Defined.

(** X16.  The intercept route composes parsing, the handler and
    serialization.  For a [POST /intercept] event whose body [JSON.parse]
    turns into an input envelope, the promise is fulfilled with a new
    response object of status 200 and the JSON content type, whose body is
    the text of the output envelope that [handleInterceptorRequest] returns
    for the parsed envelope; the output envelope itself is not returned. *)
Theorem handler_intercept (JSON_parse : val → P val)
    (render : list obj → val → string) n m (h h1 : heap)
    (event context input gatewayRequest : val) (lb : loc) :
  json_tree n h event = true →
  json_tree n h context = true →
  isInterceptorInput h event = false →
  nullish event = false →
  routed h event "/intercept" = true →
  truthy (field h event "body") = true →
  JSON_parse (field h event "body") h = Fulfilled input h1 →
  json_tree m h1 input = true →
  gateway_request h1 input = Some gatewayRequest →
  field h1 gatewayRequest "body" = VRef lb →
  ∃ (output : val) (h2 : list obj),
    handleInterceptorRequest input h1 = Ok output h2
    ∧ handler JSON_parse render event context h
      = Fulfilled (VRef (S (length h2)))
          (h2 ++ response_objects (length h2) 200 (VStr (render h2 output)))
    ∧ field h2 output "interceptorOutputVersion" = VStr "1.0".
Proof.
  intros He Hc Hi Hn Hr Hb Hp Hin Hg Hbody.
  destruct (handler_reads m h1 input gatewayRequest lb Hin Hg Hbody)
    as (output & h2 & E & _ & _ & Ht & Eo & _).
  exists output, h2. split; [done|].
  assert (output ≠ VUndefined) as Hu.
  { intros ->. simpl in Eo. symmetry in Eo. by apply insert_non_empty in Eo. }
  split; [|unfold field; by rewrite Eo].
  rewrite (handler_routed JSON_parse render n) by done.
  rewrite (routed_intercept_not_echo h event Hr), Hr.
  unfold and_then at 1. rewrite parse_body_run, Hb, Hp by done.
  unfold and_then at 1, await at 1. rewrite E.
  by rewrite (respond_run render (7 + m)).
Qed.

Lemma handler_intercept_witness :
  (json_tree 1 intercept_event_store (VRef 0) = true
   ∧ json_tree 1 intercept_event_store VNull = true
   ∧ isInterceptorInput intercept_event_store (VRef 0) = false
   ∧ nullish (VRef 0) = false
   ∧ routed intercept_event_store (VRef 0) "/intercept" = true
   ∧ truthy (field intercept_event_store (VRef 0) "body") = true
   ∧ sample_parse (field intercept_event_store (VRef 0) "body")
       intercept_event_store
     = Fulfilled (VRef 1) (intercept_event_store ++ parsed_envelope 1)
   ∧ json_tree 4 (intercept_event_store ++ parsed_envelope 1) (VRef 1) = true
   ∧ gateway_request (intercept_event_store ++ parsed_envelope 1) (VRef 1)
     = Some (VRef 4)
   ∧ field (intercept_event_store ++ parsed_envelope 1) (VRef 4) "body"
     = VRef 6)
  ∧ ∃ (output : val) (h2 : list obj),
      handleInterceptorRequest (VRef 1)
        (intercept_event_store ++ parsed_envelope 1) = Ok output h2
      ∧ handler sample_parse sample_render (VRef 0) VNull intercept_event_store
        = Fulfilled (VRef (S (length h2)))
            (h2 ++ response_objects (length h2) 200
                     (VStr (sample_render h2 output))).
Proof.
  split; [repeat split; reflexivity|].
  destruct (handler_intercept sample_parse sample_render 1 4
              intercept_event_store
              (intercept_event_store ++ parsed_envelope 1)
              (VRef 0) VNull (VRef 1) (VRef 4) 6)
    as (output & h2 & E & Eh & _); try reflexivity.
  exists output, h2. split; [exact E|exact Eh].
Defined.
